(** * minecraft-ondemand: the CDK stack of the Minecraft servers

    A shallow embedding of [cdk/lib/config.ts] and
    [cdk/lib/minecraft-stack.ts].  The constructor of [MinecraftStack] is a
    straight-line program that creates constructs in the scope of the stack
    and mutates some of them afterwards (ingress rules, policy attachments,
    mount points).  It is embedded as a computation in a state-and-error
    monad over the construct tree of the stack: a finite map from construct
    ids to construct descriptors.  Variables of the source that hold a
    construct become the id of that construct in the tree, so that every
    later mutation is seen by all holders of the reference. *)

From stdpp Require Import base strings gmap list fin_maps.
From Stdlib Require Import ZArith Ascii.

Local Open Scope string_scope.
Local Open Scope list_scope.
Local Open Scope Z_scope.

(** ** Values

    A string of the source is either known when the stack is built or a
    token that the platform resolves at deploy time (an attribute of a
    construct, a formatted ARN).  Template literals over tokens are kept
    symbolic. *)

Inductive Val : Type :=
| Str (s : string)
| Attr (id attr : string)
| ArnFormat (service resource resourceName : string)
| Template (prefix : string) (v : Val).

#[global] Instance Val_eq_dec : EqDecision Val.
Proof. solve_decision. Defined.

(** ** Configuration ([types.ts], [config.ts]) *)

Inductive Edition : Type := java | bedrock.

Record MinecraftServerDef : Type := {
  cpu : option Z;
  memory : option Z;
  containerEnv : option (list (string * string));
}.

Record Twilio : Type := {
  phoneFrom : string;
  phoneTo : string;
  accountId : string;
  authCode : string;
}.

Record StackConfig : Type := {
  domainName : string;
  serverRegion : string;
  minecraftEdition : Edition;
  shutdownMinutes : string;
  startupMinutes : string;
  useFargateSpot : bool;
  taskCpu : Z;
  taskMemory : Z;
  vpcId : string;
  snsEmailAddress : string;
  twilio : Twilio;
  debug : bool;
  minecraftServerDefs : gmap string MinecraftServerDef;
}.

(** [constants.ts] is not part of the sources at hand: its entries are taken
    as they are named in the stack. *)
Record Constants : Type := {
  CLUSTER_NAME : string;
  SERVICE_NAME : string;
  MC_SERVER_CONTAINER_NAME : string;
  WATCHDOG_SERVER_CONTAINER_NAME : string;
  ECS_VOLUME_NAME : string;
  HOSTED_ZONE_SSM_PARAMETER : string;
  DOMAIN_STACK_REGION : string;
  LAUNCHER_LAMBDA_ARN_SSM_PARAMETER : string;
}.

(** ** Platform data (aws-cdk-lib) *)

Inductive Protocol : Type := TCP | UDP.

#[global] Instance Protocol_eq_dec : EqDecision Protocol.
Proof. solve_decision. Defined.

(** [ec2.Port]: protocol, port range and the text a template literal
    prints for it. *)
Record Port : Type := {
  port_protocol : Protocol;
  fromPort : Z;
  toPort : Z;
  port_toString : string;
}.

#[global] Instance Port_eq_dec : EqDecision Port.
Proof. solve_decision. Defined.

Inductive Peer : Type :=
| anyIpv4
| securityGroupPeer (id : string).

#[global] Instance Peer_eq_dec : EqDecision Peer.
Proof. solve_decision. Defined.

Record IngressRule : Type := {
  rule_peer : Peer;
  rule_connection : Port;
  rule_description : string;
}.

(** The result of [getMinecraftServerConfig] ([util.ts], [types.ts]). *)
Record MinecraftEditionConfig : Type := {
  image : string;
  port : Z;
  protocol : Protocol;
  ingressRulePort : Port;
}.

Inductive VpcNode : Type :=
| VpcFromLookup (vpcId : string)
| VpcNew (maxAzs natGateways : Z).

Inductive RemovalPolicy : Type := SNAPSHOT | RETAIN | DESTROY.

Record FileSystem : Type := {
  fs_vpc : string;
  fs_removalPolicy : RemovalPolicy;
  (* security groups allowed on the default port of the file system *)
  fs_allowDefaultPortFrom : list string;
}.

Record AccessPoint : Type := {
  ap_fileSystem : string;
  ap_path : string;
  ap_posixUser : string * string;            (* uid, gid *)
  ap_createAcl : string * string * string;   (* ownerGid, ownerUid, permissions *)
}.

Inductive Effect : Type := ALLOW | DENY.

Record PolicyStatement : Type := {
  sid : option string;
  effect : Effect;
  actions : list string;
  resources : list Val;
  conditions : list (string * string * Val);
}.

Record Policy : Type := {
  statements : list PolicyStatement;
  roles : list string;
}.

Inductive RoleNode : Type :=
| RoleNew (assumedBy description : string)
| RoleFromArn (arn : Val).

Record Cluster : Type := {
  clusterName : string;
  cluster_vpc : string;
  containerInsights : bool;
  enableFargateCapacityProviders : bool;
}.

Record SecurityGroup : Type := {
  sg_vpc : string;
  sg_description : string;
  sg_ingress : list IngressRule;
}.

Record SSMParameterReader : Type := {
  parameterName : string;
  region : string;
}.

Record Topic : Type := {
  displayName : string;
  publishGrants : list string;
}.

Inductive SubscriptionProtocol : Type := EMAIL | SMS | HTTPS.

Record Subscription : Type := {
  sub_protocol : SubscriptionProtocol;
  sub_topic : string;
  sub_endpoint : string;
}.

(** The boot script of the maintenance host is a fixed text; only the two
    values it interpolates are recorded. *)
Record LaunchTemplate : Type := {
  lt_userData_fileSystemId : Val;
  lt_userData_region : string;
  lt_role : string;
  lt_spotOptions : string * string;   (* interruptionBehavior, requestType *)
  lt_securityGroup : string;
  lt_instanceInitiatedShutdownBehavior : string;
}.

Record EfsVolumeConfiguration : Type := {
  fileSystemId : Val;
  transitEncryption : string;
  accessPointId : Val;
  iam : string;
}.

Record Volume : Type := {
  vol_name : string;
  efsVolumeConfiguration : EfsVolumeConfiguration;
}.

Record FargateTaskDefinition : Type := {
  taskRole : string;
  memoryLimitMiB : option Z;
  td_cpu : option Z;
  volumes : list Volume;
}.

(** A directory of the host of the build.  [__dirname], the directory of
    the module, is known on that host only; [path.resolve] from it is kept
    symbolic. *)
Inductive Path : Type :=
| __dirname
| path_resolve (from : Path) (to : string).

Inductive ContainerImage : Type :=
| fromRegistry (name : string)
| fromAsset (directory : Path).

Record PortMapping : Type := {
  containerPort : Z;
  hostPort : Z;
  pm_protocol : Protocol;
}.

Record AwsLogDriver : Type := {
  logRetentionDays : Z;
  streamPrefix : string;
}.

Record MountPoint : Type := {
  containerPath : string;
  sourceVolume : string;
  readOnly : bool;
}.

Record ContainerDefinition : Type := {
  containerName : string;
  cd_image : ContainerImage;
  portMappings : list PortMapping;
  environment : option (list (string * Val));
  entryPoint : list string;
  essential : bool;
  pseudoTerminal : option bool;
  cd_taskDefinition : string;
  logging : option AwsLogDriver;
  mountPoints : list MountPoint;
}.

Inductive CapacityProvider : Type := FARGATE | FARGATE_SPOT.

Record CapacityProviderStrategy : Type := {
  capacityProvider : CapacityProvider;
  weight : Z;
  base : Z;
}.

Inductive FargatePlatformVersion : Type := LATEST.

Record FargateService : Type := {
  svc_cluster : string;
  capacityProviderStrategies : list CapacityProviderStrategy;
  svc_taskDefinition : string;
  platformVersion : FargatePlatformVersion;
  serviceName : string;
  desiredCount : Z;
  assignPublicIp : bool;
  securityGroups : list string;
}.

(** A node of the construct tree. *)
Inductive Construct : Type :=
| CVpc (v : VpcNode)
| CFileSystem (f : FileSystem)
| CAccessPoint (a : AccessPoint)
| CPolicy (p : Policy)
| CRole (r : RoleNode)
| CCluster (c : Cluster)
| CSecurityGroup (g : SecurityGroup)
| CSSMParameterReader (r : SSMParameterReader)
| CTopic (t : Topic)
| CSubscription (s : Subscription)
| CLaunchTemplate (l : LaunchTemplate)
| CTaskDefinition (t : FargateTaskDefinition)
| CContainer (c : ContainerDefinition)
| CService (s : FargateService).

(** The construct tree of the stack, by construct id. *)
Abbreviation Stack := (gmap string Construct).

(** ** The monad of the constructor

    Creating a construct under an id that the scope already holds throws;
    so does reading a property of [undefined]. *)

Inductive Error : Type :=
| ConstructExists (id : string)
| TypeError (what : string).

Inductive Result (A : Type) : Type :=
| Ok (a : A)
| Throw (e : Error).
Arguments Ok {A} a.
Arguments Throw {A} e.

Definition Build (A : Type) : Type := Stack → Result (A * Stack).

#[global] Instance Build_ret : MRet Build := λ A a st, Ok (a, st).

#[global] Instance Build_bind : MBind Build := λ A B f m st,
  match m st with
  | Ok (a, st') => f a st'
  | Throw e => Throw e
  end.

Definition throw {A} (e : Error) : Build A := λ _, Throw e.

(** [new C(this, id, props)]: the id of the new construct is the reference
    the source keeps in a variable.  Ids are compared as they are written in
    the source.  The library does more before it accepts a construct: it
    replaces the path separator in the id before it compares, and the
    constructors of the platform check their props.  Neither is at hand and
    neither is embedded: a run that is [Ok] here stands for a run of the
    constructor in which the library has accepted every construct, and what
    depends on that is stated of the runs that complete. *)
Definition new (id : string) (c : Construct) : Build string :=
  λ st, match st !! id with
        | Some _ => Throw (ConstructExists id)
        | None => Ok (id, <[id := c]> st)
        end.

(** A method of a construct that mutates it. *)
Definition mutate (id : string) (f : Construct → Construct) : Build unit :=
  λ st, Ok (tt, alter f id st).

Fixpoint forEach {A} (l : list A) (f : A → Build unit) : Build unit :=
  match l with
  | [] => mret tt
  | x :: r => f x ;; forEach r f
  end.

(** [Object.keys(o)]: every key of [o] once.  The keys come in the order of
    [map_to_list]; the tree the constructor leaves does not depend on the
    order (lemma [MinecraftStack_order] below). *)
Definition Object_keys {V} (o : gmap string V) : list string :=
  (map_to_list o).*1.

(** [o[key]] followed by a property access, which throws on [undefined]. *)
Definition index {V} (o : gmap string V) (key : string) : Build V :=
  match o !! key with
  | Some v => mret v
  | None => throw (TypeError key)
  end.

(** A string in a condition: the empty string is falsy. *)
Definition truthy (s : string) : bool :=
  match s with
  | EmptyString => false
  | String _ _ => true
  end.

(** An environment of plain strings, as the container props take it. *)
Definition plainEnvironment (env : list (string * string))
    : list (string * Val) :=
  map (λ kv, (kv.1, Str kv.2)) env.

(** ** Methods of the platform constructs

    Each method mutates the construct it is called on; the change made to
    the descriptor is a function of its own. *)

(** [ingressRulesEqual] of the platform library: two rules are the same
    when peer, protocol and ports are; the description is not compared. *)
Definition ingressRulesEqual (a b : IngressRule) : bool :=
  bool_decide (rule_peer a = rule_peer b) &&
  bool_decide (rule_connection a = rule_connection b).

Definition withIngressRule (rule : IngressRule) (c : Construct) : Construct :=
  match c with
  | CSecurityGroup g =>
      CSecurityGroup
        {| sg_vpc := sg_vpc g; sg_description := sg_description g;
           sg_ingress := if existsb (ingressRulesEqual rule) (sg_ingress g)
                         then sg_ingress g
                         else sg_ingress g ++ [rule] |}
  | _ => c
  end.

(** [SecurityGroup.addIngressRule] of the platform library: the rule is
    pushed on the rules of the group unless the group has it already
    ([if (!this.hasIngressRule(rule)) this.directIngressRules.push(rule)]). *)
Definition addIngressRule (securityGroup : string) (peer : Peer)
    (connection : Port) (description : string) : Build unit :=
  mutate securityGroup
    (withIngressRule {| rule_peer := peer; rule_connection := connection;
                        rule_description := description |}).

Definition withRole (role : string) (c : Construct) : Construct :=
  match c with
  | CPolicy p =>
      CPolicy {| statements := statements p;
                 roles := if bool_decide (role ∈ roles p) then roles p
                          else roles p ++ [role] |}
  | _ => c
  end.

(** [Policy.attachToRole]: attaching twice to one role is a no-op. *)
Definition attachToRole (policy role : string) : Build unit :=
  mutate policy (withRole role).

Definition withPublishGrant (grantee : string) (c : Construct) : Construct :=
  match c with
  | CTopic t =>
      CTopic {| displayName := displayName t;
                publishGrants := publishGrants t ++ [grantee] |}
  | _ => c
  end.

(** [Topic.grantPublish]. *)
Definition grantPublish (topic grantee : string) : Build unit :=
  mutate topic (withPublishGrant grantee).

Definition withMountPoint (mp : MountPoint) (c : Construct) : Construct :=
  match c with
  | CContainer d =>
      CContainer
        {| containerName := containerName d; cd_image := cd_image d;
           portMappings := portMappings d; environment := environment d;
           entryPoint := entryPoint d; essential := essential d;
           pseudoTerminal := pseudoTerminal d;
           cd_taskDefinition := cd_taskDefinition d; logging := logging d;
           mountPoints := mountPoints d ++ [mp] |}
  | _ => c
  end.

(** [ContainerDefinition.addMountPoints]. *)
Definition addMountPoints (container : string) (mp : MountPoint) : Build unit :=
  mutate container (withMountPoint mp).

(** [x.connections]: the security groups that stand for [x] on the
    network. *)
Definition connections (id : string) : Build (list string) :=
  λ st, match st !! id with
        | Some (CSecurityGroup _) => Ok ([id], st)
        | Some (CService s) => Ok (securityGroups s, st)
        | _ => Ok ([], st)
        end.

Definition withDefaultPortFrom (other : list string) (c : Construct)
    : Construct :=
  match c with
  | CFileSystem f =>
      CFileSystem
        {| fs_vpc := fs_vpc f; fs_removalPolicy := fs_removalPolicy f;
           fs_allowDefaultPortFrom :=
             foldl (λ acc g, if bool_decide (g ∈ acc) then acc else acc ++ [g])
                   (fs_allowDefaultPortFrom f) other |}
  | _ => c
  end.

(** [fileSystem.connections.allowDefaultPortFrom(other)]: one rule per
    security group of [other], none twice. *)
Definition allowDefaultPortFrom (fileSystem : string) (other : list string)
    : Build unit :=
  mutate fileSystem (withDefaultPortFrom other).

(** Modelled from the spec: [SSMParameterReader.getParameterValue]
    ([ssm-parameter-reader.ts] is not at hand).  The reader resolves the
    parameter at deploy time; the stack holds a token for its value. *)
Definition getParameterValue (reader : string) : Val :=
  Attr reader "Parameter.Value".

(** The references and values the tenant loop closes over. *)
Record Shared : Type := {
  fileSystem : string;
  accessPoint : string;
  ecsTaskRole : string;
  cluster : string;
  serviceSecurityGroup : string;
  hostedZoneId : Val;
  snsTopicArn : Val;
}.

(** ** Loading the configuration ([config.ts])

    [process.env] is a finite map from names to strings.  [JSON.parse] is
    the builtin of the language, read at the type [resolveMinecraftServerDefs]
    declares for its result; it answers [None] when it throws.
    [stringAsBoolean] is of [util.ts], which is not at hand, and [toNumber]
    stands for the unary [+].  The lines written to [console.error] are
    returned next to the value. *)

Section Config.

Variable JSON_parse : string → option (gmap string MinecraftServerDef).
Variable stringAsBoolean : option string → bool.
Variable toNumber : string → Z.

Definition diagnostic : string :=
  "Error: Unable to resolve .env value for MINECRAFT_SERVER_DEFS_JSON.".

Definition resolveMinecraftServerDefs (json : option string)
    : gmap string MinecraftServerDef * list string :=
  let json := default "" json in
  let defaults : gmap string MinecraftServerDef := ∅ in
  match JSON_parse json with
  | Some parsed =>
      (* { ...defaults, ...parsed }: a later spread overrides an earlier one *)
      (parsed ∪ defaults, [])
  | None => (defaults, [ diagnostic ])
  end.

(** [process.env.NAME || fallback]. *)
Definition orElse (value : option string) (fallback : string) : string :=
  match value with
  | Some s => if truthy s then s else fallback
  | None => fallback
  end.

Definition resolveConfig (env : gmap string string)
    : StackConfig * list string :=
  let defs := resolveMinecraftServerDefs (env !! "MINECRAFT_SERVER_DEFS_JSON") in
  ({| domainName := orElse (env !! "DOMAIN_NAME") "";
      serverRegion := orElse (env !! "SERVER_REGION") "us-east-1";
      minecraftEdition :=
        if bool_decide (env !! "MINECRAFT_EDITION" = Some "bedrock")
        then bedrock else java;
      shutdownMinutes := orElse (env !! "SHUTDOWN_MINUTES") "20";
      startupMinutes := orElse (env !! "STARTUP_MINUTES") "10";
      useFargateSpot := stringAsBoolean (env !! "USE_FARGATE_SPOT") || false;
      taskCpu :=
        match env !! "TASK_CPU" with
        | Some s => if truthy s then toNumber s else 1024
        | None => 1024
        end;
      taskMemory :=
        match env !! "TASK_MEMORY" with
        | Some s => if truthy s then toNumber s else 2048
        | None => 2048
        end;
      vpcId := orElse (env !! "VPC_ID") "";
      snsEmailAddress := orElse (env !! "SNS_EMAIL_ADDRESS") "";
      twilio :=
        {| phoneFrom := orElse (env !! "TWILIO_PHONE_FROM") "";
           phoneTo := orElse (env !! "TWILIO_PHONE_TO") "";
           accountId := orElse (env !! "TWILIO_ACCOUNT_ID") "";
           authCode := orElse (env !! "TWILIO_AUTH_CODE") "" |};
      debug := stringAsBoolean (env !! "DEBUG") || false;
      minecraftServerDefs := defs.1 |},
   defs.2).

End Config.

(** ** The construct ids of the stack *)

Definition perServerPrefixes : list string :=
  [ "TaskDefinition-"; "ServerContainer-"; "FargateService-";
    "WatchDogContainer-"; "ServiceControlPolicy-"; "launcherLambdaRoleArn-";
    "LauncherLambdaRole-"; "IamRoute53Policy-" ].

(** The ids of the constructs of the server under [key]. *)
Definition perServerIds (key : string) : list string :=
  (λ p, p +:+ key) <$> perServerPrefixes.

(** The ids of the constructs of the shared part; the two of the
    notification topic are there when an e-mail address is configured. *)
Definition sharedIds (config : StackConfig) : list string :=
  [ "Vpc"; "FileSystem"; "AccessPoint"; "DataRWPolicy"; "TaskRole"; "Cluster";
    "ServiceSecurityGroup"; "Route53HostedZoneIdReader" ]
  ++ (if truthy (snsEmailAddress config)
      then [ "ServerSnsTopic"; "EmailSubscription" ] else [])
  ++ [ "EFSMaintenanceRole"; "SSMManagedInstanceCorePolicy";
       "EfsMaintenanceSecurityGroup"; "EFSMaintenanceLaunchTemplate" ].

Definition allSharedIds : list string :=
  [ "Vpc"; "FileSystem"; "AccessPoint"; "DataRWPolicy"; "TaskRole"; "Cluster";
    "ServiceSecurityGroup"; "Route53HostedZoneIdReader"; "ServerSnsTopic";
    "EmailSubscription"; "EFSMaintenanceRole"; "SSMManagedInstanceCorePolicy";
    "EfsMaintenanceSecurityGroup"; "EFSMaintenanceLaunchTemplate" ].

(** The value of [snsTopicArn] when the loop starts. *)
Definition topicArn (config : StackConfig) : Val :=
  if truthy (snsEmailAddress config) then Attr "ServerSnsTopic" "topicArn"
  else Str "".

(** The references the loop body closes over, as the shared part leaves
    them. *)
Definition sharedRefs (config : StackConfig) : Shared :=
  {| fileSystem := "FileSystem";
     accessPoint := "AccessPoint";
     ecsTaskRole := "TaskRole";
     cluster := "Cluster";
     serviceSecurityGroup := "ServiceSecurityGroup";
     hostedZoneId := getParameterValue "Route53HostedZoneIdReader";
     snsTopicArn := topicArn config |}.

(** The config with another map of server definitions. *)
Definition withServerDefs (config : StackConfig)
    (defs : gmap string MinecraftServerDef) : StackConfig :=
  {| domainName := domainName config;
     serverRegion := serverRegion config;
     minecraftEdition := minecraftEdition config;
     shutdownMinutes := shutdownMinutes config;
     startupMinutes := startupMinutes config;
     useFargateSpot := useFargateSpot config;
     taskCpu := taskCpu config;
     taskMemory := taskMemory config;
     vpcId := vpcId config;
     snsEmailAddress := snsEmailAddress config;
     twilio := twilio config;
     debug := debug config;
     minecraftServerDefs := defs |}.


(** The resource scopes of a policy. *)
Definition resourceScopes (c : Construct) : list Val :=
  match c with
  | CPolicy p => statements p ≫= resources
  | _ => []
  end.

(** The platform objects of one server that a policy can reach. *)
Inductive Target : Type :=
| ServiceOf (key : string)
| TaskOf (key : string)
| RecordOf (key : string).

(** Notification constructs. *)
Definition isNotification (c : Construct) : bool :=
  match c with
  | CTopic _ | CSubscription _ => true
  | _ => false
  end.

(** ** Example data

    The constants and the edition table below are one possible content of
    [constants.ts] and [getMinecraftServerConfig]; the config follows
    [.env.sample]. *)

Definition example_constants : Constants :=
  {| CLUSTER_NAME := "minecraft";
     SERVICE_NAME := "minecraft-server";
     MC_SERVER_CONTAINER_NAME := "minecraft-server";
     WATCHDOG_SERVER_CONTAINER_NAME := "minecraft-ecsfargate-watchdog";
     ECS_VOLUME_NAME := "data";
     HOSTED_ZONE_SSM_PARAMETER := "MinecraftHostedZoneID";
     DOMAIN_STACK_REGION := "us-east-1";
     LAUNCHER_LAMBDA_ARN_SSM_PARAMETER := "LauncherLambdaRoleArn" |}.

Definition example_getMinecraftServerConfig (e : Edition)
    : MinecraftEditionConfig :=
  match e with
  | java =>
      {| image := "itzg/minecraft-server"; port := 25565; protocol := TCP;
         ingressRulePort :=
           {| port_protocol := TCP; fromPort := 25565; toPort := 25565;
              port_toString := "25565" |} |}
  | bedrock =>
      {| image := "itzg/minecraft-bedrock-server"; port := 19132;
         protocol := UDP;
         ingressRulePort :=
           {| port_protocol := UDP; fromPort := 19132; toPort := 19132;
              port_toString := "UDP 19132" |} |}
  end.

Definition example_config (email : string)
    (defs : gmap string MinecraftServerDef) : StackConfig :=
  {| domainName := "minecraft.example.com";
     serverRegion := "us-east-1";
     minecraftEdition := bedrock;
     shutdownMinutes := "10";
     startupMinutes := "5";
     useFargateSpot := true;
     taskCpu := 2048;
     taskMemory := 4096;
     vpcId := "";
     snsEmailAddress := email;
     twilio := {| phoneFrom := ""; phoneTo := ""; accountId := "";
                  authCode := "" |};
     debug := true;
     minecraftServerDefs := defs |}.

(** A definition as in [.env.sample]: no [cpu], no [memory]. *)
Definition example_def (subpath : string) : MinecraftServerDef :=
  {| cpu := None; memory := None;
     containerEnv := Some [ ("DATA_SUBPATH", subpath); ("QuietCurl", "Y");
                            ("NoPermCheck", "Y") ] |}.

Definition example_defs : gmap string MinecraftServerDef :=
  <["server1" := example_def "server1-data"]>
    (<["server2" := example_def "server2-data"]> ∅).

Fixpoint skipSpaces (s : string) : string :=
  match s with
  | String " "%char rest => skipSpaces rest
  | _ => s
  end.

(** A stand-in for [JSON.parse] that knows one document, the empty object,
    and throws on every other text. *)
Definition example_JSON_parse (text : string)
    : option (gmap string MinecraftServerDef) :=
  match skipSpaces text with
  | String "{"%char rest =>
      match skipSpaces rest with
      | String "}"%char rest' =>
          match skipSpaces rest' with
          | EmptyString => Some ∅
          | _ => None
          end
      | _ => None
      end
  | _ => None
  end.

Definition example_stringAsBoolean (s : option string) : bool :=
  bool_decide (s = Some "true").

(** What the examples read off the result of a build. *)

Definition lookupOf (id : string) (r : Result Stack) : option Construct :=
  match r with
  | Ok st => st !! id
  | Throw _ => None
  end.

Definition idsOf (r : Result Stack) : option (list string) :=
  match r with
  | Ok st => Some (map_to_list st).*1
  | Throw _ => None
  end.

Definition ingressOf (r : Result Stack) : option (list IngressRule) :=
  match lookupOf "ServiceSecurityGroup" r with
  | Some (CSecurityGroup g) => Some (sg_ingress g)
  | _ => None
  end.

(** ** Variations of a config and of a container, for the properties of
    the constructor below *)

(** The config with other default sizes of a task. *)
Definition withTaskSize (config : StackConfig) (cpuUnits memoryMiB : Z)
    : StackConfig :=
  {| domainName := domainName config;
     serverRegion := serverRegion config;
     minecraftEdition := minecraftEdition config;
     shutdownMinutes := shutdownMinutes config;
     startupMinutes := startupMinutes config;
     useFargateSpot := useFargateSpot config;
     taskCpu := cpuUnits;
     taskMemory := memoryMiB;
     vpcId := vpcId config;
     snsEmailAddress := snsEmailAddress config;
     twilio := twilio config;
     debug := debug config;
     minecraftServerDefs := minecraftServerDefs config |}.


(** ** Tactics *)

(** Two ids differ as soon as their literal parts do. *)
Ltac ids_neq :=
  let H := fresh in
  intros H; cbv [String.append] in H; congruence.

Ltac map_lookup :=
  repeat first
    [ rewrite lookup_insert_eq
    | rewrite lookup_alter_eq
    | rewrite lookup_empty
    | rewrite lookup_insert_ne by first [ discriminate | done | ids_neq ]
    | rewrite lookup_alter_ne by first [ discriminate | done | ids_neq ] ].

(** Membership in a list that is written out. *)
Ltac in_list :=
  unfold perServerIds, perServerPrefixes, sharedIds, allSharedIds; simpl;
  repeat first [ apply list_elem_of_here | apply list_elem_of_further ].

(** Splits a fact about the ids of one server into its eight instances. *)
Ltac split_ids H :=
  unfold perServerIds, perServerPrefixes in H; simpl in H;
  repeat first
    [ apply Forall_cons in H as [? H]
    | apply not_elem_of_cons in H as [? H] ];
  clear H.

Section Stack.

(** [constants.ts] and [getMinecraftServerConfig] of [util.ts] are not at
    hand; the stack is embedded over any value of them.  [isDockerInstalled]
    of [util.ts] probes the host of the build: its answer is an argument of
    the constructor. *)
Variable constants : Constants.
Variable getMinecraftServerConfig : Edition → MinecraftEditionConfig.

Definition mount : MountPoint :=
  {| containerPath := "/minecraft";
     sourceVolume := ECS_VOLUME_NAME constants;
     readOnly := false |}.

(** The props of the constructs of one server, in the order of the loop
    body. *)

Definition ingressDescription (config : StackConfig) : string :=
  "Minecraft-Server-Ingress-"
    +:+ port_toString
          (ingressRulePort (getMinecraftServerConfig (minecraftEdition config))).

Definition taskDefinitionProps (sh : Shared)
    (thisMinecraftServerDef : MinecraftServerDef) : FargateTaskDefinition :=
  {| taskRole := ecsTaskRole sh;
     memoryLimitMiB := memory thisMinecraftServerDef;
     td_cpu := cpu thisMinecraftServerDef;
     volumes :=
       [ {| vol_name := ECS_VOLUME_NAME constants;
            efsVolumeConfiguration :=
              {| fileSystemId := Attr (fileSystem sh) "fileSystemId";
                 transitEncryption := "ENABLED";
                 accessPointId := Attr (accessPoint sh) "accessPointId";
                 iam := "ENABLED" |} |} ] |}.

Definition serverContainerProps (config : StackConfig)
    (thisMinecraftServerDef : MinecraftServerDef) (key : string)
    (taskDefinition : string) : ContainerDefinition :=
  let minecraftServerConfig :=
    getMinecraftServerConfig (minecraftEdition config) in
  {| containerName := MC_SERVER_CONTAINER_NAME constants +:+ "-" +:+ key;
     cd_image := fromRegistry (image minecraftServerConfig);
     portMappings :=
       [ {| containerPort := port minecraftServerConfig;
            hostPort := port minecraftServerConfig;
            pm_protocol := protocol minecraftServerConfig |} ];
     environment := plainEnvironment <$> containerEnv thisMinecraftServerDef;
     entryPoint := [ "/minecraft/minecraft.sh" ];
     essential := true;
     pseudoTerminal := Some true;
     cd_taskDefinition := taskDefinition;
     logging :=
       if debug config
       then Some {| logRetentionDays := 3;
                    streamPrefix := MC_SERVER_CONTAINER_NAME constants |}
       else None;
     mountPoints := [] |}.

Definition serviceProps (config : StackConfig) (sh : Shared) (key : string)
    (taskDefinition : string) : FargateService :=
  {| svc_cluster := cluster sh;
     capacityProviderStrategies :=
       [ {| capacityProvider :=
              if useFargateSpot config then FARGATE_SPOT else FARGATE;
            weight := 1;
            base := 1 |} ];
     svc_taskDefinition := taskDefinition;
     platformVersion := LATEST;
     serviceName := SERVICE_NAME constants +:+ "-" +:+ key;
     desiredCount := 0;
     assignPublicIp := true;
     securityGroups := [ serviceSecurityGroup sh ] |}.

Definition watchdogContainerProps (isDockerInstalled : bool)
    (config : StackConfig) (sh : Shared) (key : string)
    (taskDefinition : string) : ContainerDefinition :=
  {| containerName :=
       WATCHDOG_SERVER_CONTAINER_NAME constants +:+ "-" +:+ key;
     cd_image :=
       if isDockerInstalled
       then fromAsset
              (path_resolve __dirname "../../minecraft-ecsfargate-watchdog/")
       else fromRegistry "doctorray/minecraft-ecsfargate-watchdog";
     portMappings := [];
     environment := Some
       [ ("CLUSTER", Str (CLUSTER_NAME constants));
         ("SERVICE", Str (SERVICE_NAME constants +:+ "-" +:+ key));
         ("DNSZONE", hostedZoneId sh);
         ("SERVERNAME", Str (key +:+ "." +:+ domainName config));
         ("SNSTOPIC", snsTopicArn sh);
         ("TWILIOFROM", Str (phoneFrom (twilio config)));
         ("TWILIOTO", Str (phoneTo (twilio config)));
         ("TWILIOAID", Str (accountId (twilio config)));
         ("TWILIOAUTH", Str (authCode (twilio config)));
         ("STARTUPMIN", Str (startupMinutes config));
         ("SHUTDOWNMIN", Str (shutdownMinutes config)) ];
     entryPoint := [ "/minecraft/watchdog.sh" ];
     essential := true;
     pseudoTerminal := None;
     cd_taskDefinition := taskDefinition;
     logging :=
       if debug config
       then Some {| logRetentionDays := 3;
                    streamPrefix := WATCHDOG_SERVER_CONTAINER_NAME constants |}
       else None;
     mountPoints := [] |}.

Definition serviceControlPolicyProps (key : string)
    (minecraftServerService : string) : Policy :=
  {| statements :=
       [ {| sid := Some ("AllowAllOnServiceAndTask" +:+ key);
            effect := ALLOW;
            actions := [ "ecs:*" ];
            resources :=
              [ Attr minecraftServerService "serviceArn";
                (* arn:aws:ecs:<region>:<account_number>:task/minecraft/* *)
                ArnFormat "ecs" "task" (CLUSTER_NAME constants +:+ "/*") ];
            conditions := [] |};
         {| sid := None;
            effect := ALLOW;
            actions := [ "ec2:DescribeNetworkInterfaces" ];
            resources := [ Str "*" ];
            conditions := [] |} ];
     roles := [] |}.

Definition iamRoute53PolicyProps (sh : Shared) : Policy :=
  {| statements :=
       [ {| sid := Some "AllowEditRecordSets";
            effect := ALLOW;
            actions := [ "route53:GetHostedZone";
                         "route53:ChangeResourceRecordSets";
                         "route53:ListResourceRecordSets" ];
            resources :=
              [ Template "arn:aws:route53:::hostedzone/" (hostedZoneId sh) ];
            conditions := [] |} ];
     roles := [] |}.

(** The body of the loop over [Object.keys(config.minecraftServerDefs)]. *)
Definition perServer (isDockerInstalled : bool) (config : StackConfig)
    (sh : Shared) (key : string) : Build unit :=
  thisMinecraftServerDef ← index (minecraftServerDefs config) key;
  let minecraftServerConfig :=
    getMinecraftServerConfig (minecraftEdition config) in
  addIngressRule (serviceSecurityGroup sh) anyIpv4
    (ingressRulePort minecraftServerConfig) (ingressDescription config);;
  taskDefinition ← new ("TaskDefinition-" +:+ key)
    (CTaskDefinition (taskDefinitionProps sh thisMinecraftServerDef));
  minecraftServerContainer ← new ("ServerContainer-" +:+ key)
    (CContainer
      (serverContainerProps config thisMinecraftServerDef key taskDefinition));
  addMountPoints minecraftServerContainer mount;;
  minecraftServerService ← new ("FargateService-" +:+ key)
    (CService (serviceProps config sh key taskDefinition));
  serviceConnections ← connections minecraftServerService;
  allowDefaultPortFrom (fileSystem sh) serviceConnections;;
  watchdogContainer ← new ("WatchDogContainer-" +:+ key)
    (CContainer
      (watchdogContainerProps isDockerInstalled config sh key taskDefinition));
  addMountPoints watchdogContainer mount;;
  serviceControlPolicy ← new ("ServiceControlPolicy-" +:+ key)
    (CPolicy (serviceControlPolicyProps key minecraftServerService));
  attachToRole serviceControlPolicy (ecsTaskRole sh);;
  launcherLambdaRoleArnReader ← new ("launcherLambdaRoleArn-" +:+ key)
    (CSSMParameterReader
      {| parameterName :=
           LAUNCHER_LAMBDA_ARN_SSM_PARAMETER constants +:+ "-" +:+ key;
         region := DOMAIN_STACK_REGION constants |});
  let launcherLambdaRoleArn := getParameterValue launcherLambdaRoleArnReader in
  launcherLambdaRole ← new ("LauncherLambdaRole-" +:+ key)
    (CRole (RoleFromArn launcherLambdaRoleArn));
  attachToRole serviceControlPolicy launcherLambdaRole;;
  iamRoute53Policy ← new ("IamRoute53Policy-" +:+ key)
    (CPolicy (iamRoute53PolicyProps sh));
  attachToRole iamRoute53Policy (ecsTaskRole sh).

(** The notification topic, created only when an e-mail address is
    configured; the value is the topic ARN handed to the watchdogs. *)
Definition notificationTopic (config : StackConfig) (ecsTaskRole : string)
    : Build Val :=
  if truthy (snsEmailAddress config) then
    snsTopic ← new "ServerSnsTopic" (CTopic
      {| displayName := "Minecraft Server Notifications";
         publishGrants := [] |});
    grantPublish snsTopic ecsTaskRole;;
    emailSubscription ← new "EmailSubscription" (CSubscription
      {| sub_protocol := EMAIL;
         sub_topic := snsTopic;
         sub_endpoint := snsEmailAddress config |});
    mret (Attr snsTopic "topicArn")
  else mret (Str "").

Definition ssmManagedInstanceCoreActions : list string :=
  [ "ssm:DescribeAssociation";
    "ssm:GetDeployablePatchSnapshotForInstance";
    "ssm:GetDocument";
    "ssm:DescribeDocument";
    "ssm:GetManifest";
    "ssm:GetParameter";
    "ssm:GetParameters";
    "ssm:ListAssociations";
    "ssm:ListInstanceAssociations";
    "ssm:PutInventory";
    "ssm:PutComplianceItems";
    "ssm:PutConfigurePackageResult";
    "ssm:UpdateAssociationStatus";
    "ssm:UpdateInstanceAssociationStatus";
    "ssm:UpdateInstanceInformation";
    "ssmmessages:CreateControlChannel";
    "ssmmessages:CreateDataChannel";
    "ssmmessages:OpenControlChannel";
    "ssmmessages:OpenDataChannel";
    "ec2messages:AcknowledgeMessage";
    "ec2messages:DeleteMessage";
    "ec2messages:FailMessage";
    "ec2messages:GetEndpoint";
    "ec2messages:GetMessages";
    "ec2messages:SendReply" ].

(** The constructor of [MinecraftStack], in two parts.  First the
    statements that run once: they create the resources all servers share
    and leave the references the loop body closes over. *)
Definition sharedResources (config : StackConfig) : Build Shared :=
  vpc ← new "Vpc" (CVpc
    (if truthy (vpcId config) then VpcFromLookup (vpcId config)
     else VpcNew 3 0));
  fileSystem ← new "FileSystem" (CFileSystem
    {| fs_vpc := vpc;
       fs_removalPolicy := SNAPSHOT;
       fs_allowDefaultPortFrom := [] |});
  accessPoint ← new "AccessPoint" (CAccessPoint
    {| ap_fileSystem := fileSystem;
       ap_path := "/minecraft";
       ap_posixUser := ("1000", "1000");
       ap_createAcl := ("1000", "1000", "0755") |});
  efsReadWriteDataPolicy ← new "DataRWPolicy" (CPolicy
    {| statements :=
         [ {| sid := Some "AllowReadWriteOnEFS";
              effect := ALLOW;
              actions := [ "elasticfilesystem:ClientMount";
                           "elasticfilesystem:ClientWrite";
                           "elasticfilesystem:DescribeFileSystems" ];
              resources := [ Attr fileSystem "fileSystemArn" ];
              conditions :=
                [ ("StringEquals", "elasticfilesystem:AccessPointArn",
                   Attr accessPoint "accessPointArn") ] |} ];
       roles := [] |});
  ecsTaskRole ← new "TaskRole" (CRole
    (RoleNew "ecs-tasks.amazonaws.com" "Minecraft ECS task role"));
  attachToRole efsReadWriteDataPolicy ecsTaskRole;;
  cluster ← new "Cluster" (CCluster
    {| clusterName := CLUSTER_NAME constants;
       cluster_vpc := vpc;
       containerInsights := false;
       enableFargateCapacityProviders := true |});
  serviceSecurityGroup ← new "ServiceSecurityGroup" (CSecurityGroup
    {| sg_vpc := vpc;
       sg_description := "Security group for Minecraft on-demand";
       sg_ingress := [] |});
  hostedZoneIdReader ← new "Route53HostedZoneIdReader" (CSSMParameterReader
    {| parameterName := HOSTED_ZONE_SSM_PARAMETER constants;
       region := DOMAIN_STACK_REGION constants |});
  let hostedZoneId := getParameterValue hostedZoneIdReader in
  snsTopicArn ← notificationTopic config ecsTaskRole;
  efsMaintenanceInstanceRole ← new "EFSMaintenanceRole" (CRole
    (RoleNew "ec2.amazonaws.com" "Minecraft EC2 instance role"));
  ssmManagedInstanceCorePolicy ← new "SSMManagedInstanceCorePolicy" (CPolicy
    {| statements :=
         [ {| sid := Some "AllowSSMManagedInstance";
              effect := ALLOW;
              actions := ssmManagedInstanceCoreActions;
              resources := [ Str "*" ];
              conditions := [] |} ];
       roles := [] |});
  attachToRole ssmManagedInstanceCorePolicy efsMaintenanceInstanceRole;;
  attachToRole efsReadWriteDataPolicy efsMaintenanceInstanceRole;;
  efsMaintenanceSecurityGroup ← new "EfsMaintenanceSecurityGroup"
    (CSecurityGroup
      {| sg_vpc := vpc;
         sg_description :=
           "Security group for Minecraft on-demand EFS Maintenance Instances";
         sg_ingress := [] |});
  maintenanceConnections ← connections efsMaintenanceSecurityGroup;
  allowDefaultPortFrom fileSystem maintenanceConnections;;
  efsMaintenanceLaunchTemplate ← new "EFSMaintenanceLaunchTemplate"
    (CLaunchTemplate
      {| lt_userData_fileSystemId := Attr fileSystem "fileSystemId";
         lt_userData_region := serverRegion config;
         lt_role := efsMaintenanceInstanceRole;
         lt_spotOptions := ("TERMINATE", "ONE_TIME");
         lt_securityGroup := efsMaintenanceSecurityGroup;
         lt_instanceInitiatedShutdownBehavior := "TERMINATE" |});
  mret {| fileSystem := fileSystem;
          accessPoint := accessPoint;
          ecsTaskRole := ecsTaskRole;
          cluster := cluster;
          serviceSecurityGroup := serviceSecurityGroup;
          hostedZoneId := hostedZoneId;
          snsTopicArn := snsTopicArn |}.

(** Then the statements that run for each Minecraft server in the
    config. *)
Definition MinecraftStack (isDockerInstalled : bool) (config : StackConfig)
    : Build unit :=
  sh ← sharedResources config;
  forEach (Object_keys (minecraftServerDefs config))
    (perServer isDockerInstalled config sh).

(** Synthesis: the constructor run in the empty scope of a new stack. *)
Definition synth (isDockerInstalled : bool) (config : StackConfig)
    : Result Stack :=
  match MinecraftStack isDockerInstalled config ∅ with
  | Ok (_, st) => Ok st
  | Throw e => Throw e
  end.

(** ** What the constructor leaves in the tree *)

(** The ingress rule of the edition of the config. *)
Definition editionRule (config : StackConfig) : IngressRule :=
  {| rule_peer := anyIpv4;
     rule_connection :=
       ingressRulePort (getMinecraftServerConfig (minecraftEdition config));
     rule_description := ingressDescription config |}.

(** The constructs of the server under [key] as the loop body leaves
    them. *)
Record perServerNodes (docker : bool) (config : StackConfig)
    (key : string) (d : MinecraftServerDef) (st : Stack) : Prop := {
  node_taskDefinition :
    st !! ("TaskDefinition-" +:+ key) =
      Some (CTaskDefinition
        (taskDefinitionProps (sharedRefs config) d));
  node_serverContainer :
    st !! ("ServerContainer-" +:+ key) =
      Some (withMountPoint mount (CContainer
        (serverContainerProps config d key
           ("TaskDefinition-" +:+ key))));
  node_service :
    st !! ("FargateService-" +:+ key) =
      Some (CService (serviceProps config (sharedRefs config) key
                        ("TaskDefinition-" +:+ key)));
  node_watchdog :
    st !! ("WatchDogContainer-" +:+ key) =
      Some (withMountPoint mount (CContainer
        (watchdogContainerProps docker config (sharedRefs config)
           key ("TaskDefinition-" +:+ key))));
  node_controlPolicy :
    st !! ("ServiceControlPolicy-" +:+ key) =
      Some (withRole ("LauncherLambdaRole-" +:+ key) (withRole "TaskRole"
        (CPolicy (serviceControlPolicyProps key
                    ("FargateService-" +:+ key)))));
  node_reader :
    st !! ("launcherLambdaRoleArn-" +:+ key) =
      Some (CSSMParameterReader
        {| parameterName :=
             LAUNCHER_LAMBDA_ARN_SSM_PARAMETER constants +:+ "-" +:+ key;
           region := DOMAIN_STACK_REGION constants |});
  node_launcherRole :
    st !! ("LauncherLambdaRole-" +:+ key) =
      Some (CRole (RoleFromArn
        (getParameterValue ("launcherLambdaRoleArn-" +:+ key))));
  node_route53Policy :
    st !! ("IamRoute53Policy-" +:+ key) =
      Some (withRole "TaskRole"
        (CPolicy (iamRoute53PolicyProps (sharedRefs config))));
}.

(** What one run of the loop body does to the rest of the tree. *)
Record perServerFrame (config : StackConfig) (ids : list string)
    (n : nat) (st st' : Stack) : Prop := {
  frame_securityGroup :
    st' !! "ServiceSecurityGroup" =
      Nat.iter n (withIngressRule (editionRule config))
        <$> st !! "ServiceSecurityGroup";
  frame_fileSystem :
    st' !! "FileSystem" =
      Nat.iter n (withDefaultPortFrom [ "ServiceSecurityGroup" ])
        <$> st !! "FileSystem";
  frame_other : ∀ id,
    id ∉ ids → id ≠ "ServiceSecurityGroup" → id ≠ "FileSystem" →
    st' !! id = st !! id;
}.

Definition fresh (key : string) (st : Stack) : Prop :=
  Forall (λ id, st !! id = None) (perServerIds key).

(** The shared part of the tree, as [sharedResources] leaves it. *)
Record sharedNodes (config : StackConfig) (st : Stack) : Prop := {
  shared_vpc :
    st !! "Vpc" =
      Some (CVpc (if truthy (vpcId config) then VpcFromLookup (vpcId config)
                  else VpcNew 3 0));
  shared_fileSystem :
    st !! "FileSystem" =
      Some (CFileSystem
        {| fs_vpc := "Vpc"; fs_removalPolicy := SNAPSHOT;
           fs_allowDefaultPortFrom := [ "EfsMaintenanceSecurityGroup" ] |});
  shared_accessPoint :
    st !! "AccessPoint" =
      Some (CAccessPoint
        {| ap_fileSystem := "FileSystem"; ap_path := "/minecraft";
           ap_posixUser := ("1000", "1000");
           ap_createAcl := ("1000", "1000", "0755") |});
  shared_dataPolicy :
    ∃ p, st !! "DataRWPolicy" = Some (CPolicy p)
         ∧ roles p = [ "TaskRole"; "EFSMaintenanceRole" ];
  shared_taskRole :
    st !! "TaskRole" =
      Some (CRole (RoleNew "ecs-tasks.amazonaws.com"
                     "Minecraft ECS task role"));
  shared_cluster :
    st !! "Cluster" =
      Some (CCluster
        {| clusterName := CLUSTER_NAME constants; cluster_vpc := "Vpc";
           containerInsights := false;
           enableFargateCapacityProviders := true |});
  shared_securityGroup :
    st !! "ServiceSecurityGroup" =
      Some (CSecurityGroup
        {| sg_vpc := "Vpc";
           sg_description := "Security group for Minecraft on-demand";
           sg_ingress := [] |});
  shared_hostedZoneIdReader :
    st !! "Route53HostedZoneIdReader" =
      Some (CSSMParameterReader
        {| parameterName := HOSTED_ZONE_SSM_PARAMETER constants;
           region := DOMAIN_STACK_REGION constants |});
  shared_topic :
    st !! "ServerSnsTopic" =
      if truthy (snsEmailAddress config)
      then Some (CTopic {| displayName := "Minecraft Server Notifications";
                           publishGrants := [ "TaskRole" ] |})
      else None;
  shared_subscription :
    st !! "EmailSubscription" =
      if truthy (snsEmailAddress config)
      then Some (CSubscription
             {| sub_protocol := EMAIL; sub_topic := "ServerSnsTopic";
                sub_endpoint := snsEmailAddress config |})
      else None;
  shared_maintenanceRole :
    st !! "EFSMaintenanceRole" =
      Some (CRole (RoleNew "ec2.amazonaws.com" "Minecraft EC2 instance role"));
  shared_ssmPolicy :
    ∃ p, st !! "SSMManagedInstanceCorePolicy" = Some (CPolicy p)
         ∧ roles p = [ "EFSMaintenanceRole" ];
  shared_maintenanceGroup :
    ∃ g, st !! "EfsMaintenanceSecurityGroup" = Some (CSecurityGroup g)
         ∧ sg_ingress g = [];
  shared_launchTemplate :
    st !! "EFSMaintenanceLaunchTemplate" =
      Some (CLaunchTemplate
        {| lt_userData_fileSystemId := Attr "FileSystem" "fileSystemId";
           lt_userData_region := serverRegion config;
           lt_role := "EFSMaintenanceRole";
           lt_spotOptions := ("TERMINATE", "ONE_TIME");
           lt_securityGroup := "EfsMaintenanceSecurityGroup";
           lt_instanceInitiatedShutdownBehavior := "TERMINATE" |});
  shared_only : ∀ id, id ∉ sharedIds config → st !! id = None;
}.

(** Which objects a resource scope of the stack reaches: [*] reaches
    everything; the ARN of a service reaches that service; the ARN
    [task/<cluster>/*] reaches every task run in the cluster, whichever
    service started it; the ARN of the hosted zone reaches every record
    of the zone. *)
Definition covers (scope : Val) (t : Target) : bool :=
  bool_decide (scope = Str "*")
  || match t with
     | ServiceOf key =>
         bool_decide (scope = Attr ("FargateService-" +:+ key) "serviceArn")
     | TaskOf key =>
         bool_decide
           (scope = ArnFormat "ecs" "task" (CLUSTER_NAME constants +:+ "/*"))
     | RecordOf key =>
         bool_decide
           (scope = Template "arn:aws:route53:::hostedzone/"
                      (getParameterValue "Route53HostedZoneIdReader"))
     end.

(** The isolation of the policies of [k1] from the server under [k2],
    as the claim words it. *)
Definition isolated (st : Stack) (k1 k2 : string) : Prop :=
  ∀ id c scope t,
    id ∈ [ "ServiceControlPolicy-" +:+ k1; "IamRoute53Policy-" +:+ k1 ] →
    st !! id = Some c →
    scope ∈ resourceScopes c →
    t ∈ [ ServiceOf k2; TaskOf k2; RecordOf k2 ] →
    covers scope t = false.

(** * Proofs *)

Lemma covers_service scope key :
  covers scope (ServiceOf key) = true →
  scope = Str "*"
  ∨ scope = Attr ("FargateService-" +:+ key) "serviceArn".
Proof.
  unfold covers. intros H. apply orb_prop in H as [H|H].
  - left. by apply bool_decide_eq_true_1 in H.
  - right. by apply bool_decide_eq_true_1 in H.
Qed.

Lemma run_ret {A B} (a : A) (k : A → Build B) (st : Stack) :
  (mret a ≫= k) st = k a st.
Proof. done. Qed.

Lemma run_assoc {A B C} (m : Build A) (f : A → Build B) (k : B → Build C)
    (st : Stack) :
  ((m ≫= f) ≫= k) st = (m ≫= (λ a, f a ≫= k)) st.
Proof. unfold mbind, Build_bind. by destruct (m st) as [[a st']|e]. Qed.

Lemma run_new {B} id c (k : string → Build B) (st : Stack) :
  st !! id = None → (new id c ≫= k) st = k id (<[id := c]> st).
Proof. intros H. unfold mbind, Build_bind, new. by rewrite H. Qed.

Lemma run_mutate {B} id g (k : unit → Build B) (st : Stack) :
  (mutate id g ≫= k) st = k tt (alter g id st).
Proof. done. Qed.

Lemma run_index {V B} (o : gmap string V) key v (k : V → Build B) (st : Stack) :
  o !! key = Some v → (index o key ≫= k) st = k v st.
Proof. intros H. unfold mbind, Build_bind, index. by rewrite H. Qed.

Lemma run_connections_service {B} id s (k : list string → Build B)
    (st : Stack) :
  st !! id = Some (CService s) →
  (connections id ≫= k) st = k (securityGroups s) st.
Proof. intros H. unfold mbind, Build_bind, connections. by rewrite H. Qed.

Lemma run_connections_group {B} id g (k : list string → Build B)
    (st : Stack) :
  st !! id = Some (CSecurityGroup g) →
  (connections id ≫= k) st = k [id] st.
Proof. intros H. unfold mbind, Build_bind, connections. by rewrite H. Qed.

Lemma perServerIds_inj id k k' :
  id ∈ perServerIds k → id ∈ perServerIds k' → k = k'.
Proof.
  unfold perServerIds, perServerPrefixes. simpl. intros H H'.
  repeat (apply elem_of_cons in H as [H|H]);
    [ .. | by destruct (not_elem_of_nil _ H) ];
    subst id;
    repeat (apply elem_of_cons in H' as [H'|H']);
    try (by destruct (not_elem_of_nil _ H'));
    cbv [String.append] in H'; congruence.
Qed.

Lemma allSharedIds_not_perServer id key :
  id ∈ allSharedIds → id ∉ perServerIds key.
Proof.
  unfold allSharedIds, perServerIds, perServerPrefixes. simpl. intros H H'.
  repeat (apply elem_of_cons in H as [->|H]);
    [ .. | by destruct (not_elem_of_nil _ H) ];
    repeat (apply elem_of_cons in H' as [H'|H']);
    try (by destruct (not_elem_of_nil _ H'));
    cbv [String.append] in H'; congruence.
Qed.

Lemma sharedIds_all config id : id ∈ sharedIds config → id ∈ allSharedIds.
Proof.
  unfold sharedIds. intros H.
  destruct (truthy _); simpl in H;
    repeat (apply elem_of_cons in H as [->|H]);
    first [ by destruct (not_elem_of_nil _ H) | in_list ].
Qed.

Lemma sharedIds_not_perServer config id key :
  id ∈ sharedIds config → id ∉ perServerIds key.
Proof.
  intros H. by apply allSharedIds_not_perServer, (sharedIds_all config).
Qed.

Lemma perServer_run docker config key d (st : Stack) :
  minecraftServerDefs config !! key = Some d →
  fresh key st →
  ∃ st', perServer docker config (sharedRefs config) key st = Ok (tt, st')
         ∧ perServerNodes docker config key d st'
         ∧ perServerFrame config (perServerIds key) 1 st st'.
Proof.
  intros Hd Hfresh. unfold fresh in Hfresh. split_ids Hfresh.
  eexists. split; [|split].
  - unfold perServer, addIngressRule, addMountPoints, attachToRole,
      allowDefaultPortFrom.
    rewrite (run_index _ _ _ _ _ Hd). cbv beta zeta.
    cbn [serviceSecurityGroup fileSystem ecsTaskRole sharedRefs].
    rewrite run_mutate.
    rewrite run_new by (map_lookup; done).
    rewrite run_new by (map_lookup; done).
    rewrite run_mutate.
    rewrite run_new by (map_lookup; done).
    erewrite run_connections_service by (map_lookup; done).
    rewrite run_mutate.
    rewrite run_new by (map_lookup; done).
    rewrite run_mutate.
    rewrite run_new by (map_lookup; done).
    rewrite run_mutate.
    rewrite run_new by (map_lookup; done).
    rewrite run_new by (map_lookup; done).
    rewrite run_mutate.
    rewrite run_new by (map_lookup; done).
    reflexivity.
  - split; map_lookup; done.
  - split.
    + map_lookup. done.
    + map_lookup. done.
    + intros id Hid Hsg Hfs. split_ids Hid.
      assert ("ServiceSecurityGroup" ≠ id) by done.
      assert ("FileSystem" ≠ id) by done.
      repeat first [ rewrite lookup_insert_ne by done
                   | rewrite lookup_alter_ne by done ].
      done.
Qed.

Lemma withIngressRule_twice config c :
  withIngressRule (editionRule config)
    (withIngressRule (editionRule config) c) =
  withIngressRule (editionRule config) c.
Proof.
  destruct c as [| | | | | |g| | | | | | |]; try done. simpl.
  destruct (existsb _ (sg_ingress g)) eqn:E; simpl.
  - by rewrite E.
  - rewrite existsb_app, E. simpl. unfold ingressRulesEqual.
    by rewrite !bool_decide_eq_true_2.
Qed.

Lemma withDefaultPortFrom_twice g c :
  withDefaultPortFrom [g] (withDefaultPortFrom [g] c) =
  withDefaultPortFrom [g] c.
Proof.
  destruct c as [|f| | | | | | | | | | | |]; try done. simpl.
  destruct (bool_decide (g ∈ fs_allowDefaultPortFrom f)) eqn:E.
  - by rewrite E.
  - rewrite bool_decide_eq_true_2; [done|]. set_solver.
Qed.

(** The loop over the keys. *)
Lemma forEach_perServer docker config (ks : list string) : ∀ st : Stack,
  NoDup ks →
  Forall (λ k, is_Some (minecraftServerDefs config !! k)) ks →
  Forall (λ k, fresh k st) ks →
  ∃ st', forEach ks (perServer docker config (sharedRefs config)) st
         = Ok (tt, st')
    ∧ (∀ k d, k ∈ ks → minecraftServerDefs config !! k = Some d →
         perServerNodes docker config k d st')
    ∧ perServerFrame config (ks ≫= perServerIds) (length ks) st st'.
Proof.
  induction ks as [|k ks IH]; intros st Hnd Hdefs Hfresh.
  - exists st. split; [done|]. split.
    + intros k d Hk. by destruct (not_elem_of_nil _ Hk).
    + split; simpl; try done; by destruct (st !! _).
  - apply NoDup_cons in Hnd as [Hk Hnd].
    apply Forall_cons in Hdefs as [[d Hd] Hdefs].
    apply Forall_cons in Hfresh as [Hfk Hfresh].
    destruct (perServer_run docker config k d st Hd Hfk)
      as (st1 & Hrun & Hnodes & Hframe).
    destruct (IH st1 Hnd Hdefs) as (st' & Hloop & Hnodes' & Hframe').
    { rewrite Forall_forall in Hfresh |- *. intros k' Hk'.
      specialize (Hfresh k' Hk'). unfold fresh in *.
      rewrite Forall_forall in Hfresh |- *. intros id Hid.
      rewrite (frame_other _ _ _ _ _ Hframe); [by apply Hfresh| | |].
      - intros Hid'. apply Hk.
        by rewrite (perServerIds_inj _ _ _ Hid' Hid).
      - intros ->. revert Hid.
        apply (sharedIds_not_perServer config). in_list.
      - intros ->. revert Hid.
        apply (sharedIds_not_perServer config). in_list. }
    exists st'. split; [|split].
    + simpl. unfold mbind, Build_bind. by rewrite Hrun.
    + intros k' d' Hk' Hd'. apply elem_of_cons in Hk' as [->|Hk'].
      * assert (d' = d) as -> by congruence.
        assert (Hkeep : ∀ id, id ∈ perServerIds k → st' !! id = st1 !! id).
        { intros id Hid. apply (frame_other _ _ _ _ _ Hframe').
          - intros Hin. apply list_elem_of_bind in Hin as (k' & Hid' & Hk').
            apply Hk. by rewrite (perServerIds_inj _ _ _ Hid Hid').
          - intros ->. revert Hid.
            apply (sharedIds_not_perServer config). in_list.
          - intros ->. revert Hid.
            apply (sharedIds_not_perServer config). in_list. }
        destruct Hnodes.
        split; (rewrite Hkeep; [done|]); in_list.
      * by apply Hnodes'.
    + destruct Hframe as [Hsg Hfs Hother].
      destruct Hframe' as [Hsg' Hfs' Hother'].
      split.
      * rewrite Hsg', Hsg. simpl length.
        destruct (st !! "ServiceSecurityGroup"); [|done]. simpl. f_equal.
        apply Nat.iter_swap.
      * rewrite Hfs', Hfs. simpl length.
        destruct (st !! "FileSystem"); [|done]. simpl. f_equal.
        apply Nat.iter_swap.
      * intros id Hid Hsgid Hfsid. rewrite bind_cons in Hid.
        apply not_elem_of_app in Hid as [Hid1 Hid2].
        rewrite Hother' by done. by apply Hother.
Qed.

Lemma sharedResources_run config :
  ∃ st0, sharedResources config ∅ = Ok (sharedRefs config, st0)
         ∧ sharedNodes config st0.
Proof.
  unfold sharedResources, notificationTopic, sharedRefs, topicArn, sharedIds,
    attachToRole, grantPublish, allowDefaultPortFrom.
  destruct (truthy (snsEmailAddress config)) eqn:Hemail.
  - eexists. split.
    + repeat first
        [ rewrite run_assoc
        | rewrite run_ret
        | rewrite run_mutate
        | rewrite run_new by (vm_compute; reflexivity)
        | erewrite run_connections_group by (vm_compute; reflexivity) ].
      reflexivity.
    + split; rewrite ?Hemail;
        first [ vm_compute; reflexivity
              | eexists; split; vm_compute; reflexivity
              | idtac ].
      intros id Hid. unfold sharedIds in Hid. rewrite Hemail in Hid.
      simpl in Hid.
      repeat (apply not_elem_of_cons in Hid as [? Hid]).
      repeat first [ rewrite lookup_insert_ne by done
                   | rewrite lookup_alter_ne by done ].
      apply lookup_empty.
  - eexists. split.
    + repeat first
        [ rewrite run_assoc
        | rewrite run_ret
        | rewrite run_mutate
        | rewrite run_new by (vm_compute; reflexivity)
        | erewrite run_connections_group by (vm_compute; reflexivity) ].
      reflexivity.
    + split; rewrite ?Hemail;
        first [ vm_compute; reflexivity
              | eexists; split; vm_compute; reflexivity
              | idtac ].
      intros id Hid. unfold sharedIds in Hid. rewrite Hemail in Hid.
      simpl in Hid.
      repeat (apply not_elem_of_cons in Hid as [? Hid]).
      repeat first [ rewrite lookup_insert_ne by done
                   | rewrite lookup_alter_ne by done ].
      apply lookup_empty.
Qed.

Lemma elem_of_Object_keys {V} (o : gmap string V) k :
  k ∈ Object_keys o ↔ is_Some (o !! k).
Proof.
  unfold Object_keys. rewrite list_elem_of_fmap. split.
  - intros [[k' v] [-> H]]. apply elem_of_map_to_list in H. by exists v.
  - intros [v H]. exists (k, v). split; [done|].
    by apply elem_of_map_to_list.
Qed.

Lemma length_Object_keys {V} (o : gmap string V) :
  length (Object_keys o) = size o.
Proof. unfold Object_keys. by rewrite length_fmap, length_map_to_list. Qed.

(** The whole constructor. *)
Lemma synth_run docker config :
  ∃ st0 st,
    sharedResources config ∅ = Ok (sharedRefs config, st0)
    ∧ sharedNodes config st0
    ∧ synth docker config = Ok st
    ∧ (∀ k d, minecraftServerDefs config !! k = Some d →
         perServerNodes docker config k d st)
    ∧ perServerFrame config
        (Object_keys (minecraftServerDefs config) ≫= perServerIds)
        (size (minecraftServerDefs config)) st0 st.
Proof.
  destruct (sharedResources_run config) as (st0 & Hrun & Hshared).
  destruct (forEach_perServer docker config
              (Object_keys (minecraftServerDefs config)) st0)
    as (st & Hloop & Hnodes & Hframe).
  { apply NoDup_fst_map_to_list. }
  { apply Forall_forall. intros k. apply elem_of_Object_keys. }
  { apply Forall_forall. intros k _. apply Forall_forall. intros id Hid.
    apply (shared_only _ _ Hshared). intros Hin.
    by apply (sharedIds_not_perServer config id k). }
  exists st0, st. split; [done|]. split; [done|]. split; [|split].
  - unfold synth, MinecraftStack, mbind, Build_bind.
    rewrite Hrun. by rewrite Hloop.
  - intros k d Hd. apply Hnodes; [|done]. apply elem_of_Object_keys. eauto.
  - by rewrite <- length_Object_keys.
Qed.


Lemma iter_withIngressRule config n c :
  Nat.iter (S n) (withIngressRule (editionRule config)) c =
  withIngressRule (editionRule config) c.
Proof.
  induction n as [|n IH]; [done|].
  change (Nat.iter (S (S n)) ?f c) with (f (Nat.iter (S n) f c)).
  rewrite IH. apply withIngressRule_twice.
Qed.

(** The ingress rules of the shared security group. *)
Lemma synth_securityGroup docker config :
  ∃ st, synth docker config = Ok st
    ∧ st !! "ServiceSecurityGroup" =
        Some (CSecurityGroup
          {| sg_vpc := "Vpc";
             sg_description := "Security group for Minecraft on-demand";
             sg_ingress :=
               match size (minecraftServerDefs config) with
               | O => []
               | S _ => [ editionRule config ]
               end |}).
Proof.
  destruct (synth_run docker config)
    as (st0 & st & _ & Hshared & Hsynth & _ & Hframe).
  exists st. split; [done|].
  rewrite (frame_securityGroup _ _ _ _ _ Hframe).
  rewrite (shared_securityGroup _ _ Hshared).
  destruct (size _) as [|n]; [done|].
  cbn [fmap option_fmap option_map]. by rewrite iter_withIngressRule.
Qed.

(** A shared construct other than the security group and the file system
    is as [sharedResources] left it. *)
Lemma frame_shared config ids n st0 st id :
  perServerFrame config (ids ≫= perServerIds) n st0 st →
  id ∈ sharedIds config →
  id ≠ "ServiceSecurityGroup" → id ≠ "FileSystem" →
  st !! id = st0 !! id.
Proof.
  intros Hframe Hid Hsg Hfs. apply (frame_other _ _ _ _ _ Hframe); try done.
  intros Hin. apply list_elem_of_bind in Hin as (k & Hin & _).
  by apply (sharedIds_not_perServer config id k).
Qed.

(** Every construct of the tree is a shared one or belongs to a key. *)
Lemma synth_dom config st0 st id :
  sharedNodes config st0 →
  perServerFrame config
    (Object_keys (minecraftServerDefs config) ≫= perServerIds)
    (size (minecraftServerDefs config)) st0 st →
  is_Some (st !! id) →
  id ∈ sharedIds config
  ∨ ∃ k, is_Some (minecraftServerDefs config !! k) ∧ id ∈ perServerIds k.
Proof.
  intros Hshared Hframe Hsome.
  destruct (decide (id ∈ sharedIds config)) as [|Hns]; [by left|right].
  destruct (decide (id ∈ Object_keys (minecraftServerDefs config)
                           ≫= perServerIds)) as [Hin|Hnin].
  - apply list_elem_of_bind in Hin as (k & Hin & Hk).
    exists k. split; [|done]. by apply elem_of_Object_keys.
  - rewrite (frame_other _ _ _ _ _ Hframe) in Hsome; try done.
    + rewrite (shared_only _ _ Hshared) in Hsome by done.
      by destruct Hsome.
    + intros ->. apply Hns. in_list.
    + intros ->. apply Hns. in_list.
Qed.

Lemma iter_withDefaultPortFrom n l f :
  ∃ f', Nat.iter n (withDefaultPortFrom l) (CFileSystem f) = CFileSystem f'.
Proof.
  induction n as [|n [f' IH]]; [by exists f|].
  simpl. rewrite IH. by eexists.
Qed.

(** The notification constructs of the tree are the two of the shared
    part. *)
Lemma synth_notification config st0 st id c :
  sharedNodes config st0 →
  perServerFrame config
    (Object_keys (minecraftServerDefs config) ≫= perServerIds)
    (size (minecraftServerDefs config)) st0 st →
  (∀ k d, minecraftServerDefs config !! k = Some d →
     ∃ docker, perServerNodes docker config k d st) →
  st !! id = Some c →
  isNotification c = true →
  (id = "ServerSnsTopic" ∨ id = "EmailSubscription") ∧ st0 !! id = Some c.
Proof.
  intros Hshared Hframe Hnodes Hid Hc.
  destruct (synth_dom config st0 st id Hshared Hframe) as [Hin|Hin];
    [by eexists| |].
  - destruct (decide (id = "ServiceSecurityGroup")) as [->|Hsg].
    { rewrite (frame_securityGroup _ _ _ _ _ Hframe) in Hid.
      rewrite (shared_securityGroup _ _ Hshared) in Hid.
      simpl in Hid. injection Hid as <-.
      destruct (size _) as [|n]; [done|].
      by rewrite iter_withIngressRule in Hc. }
    destruct (decide (id = "FileSystem")) as [->|Hfs].
    { rewrite (frame_fileSystem _ _ _ _ _ Hframe) in Hid.
      rewrite (shared_fileSystem _ _ Hshared) in Hid.
      simpl in Hid. injection Hid as <-.
      by destruct (iter_withDefaultPortFrom (size (minecraftServerDefs config))
                  [ "ServiceSecurityGroup" ]
                  {| fs_vpc := "Vpc"; fs_removalPolicy := SNAPSHOT;
                     fs_allowDefaultPortFrom :=
                       [ "EfsMaintenanceSecurityGroup" ] |})
        as [f' Hf']; rewrite Hf' in Hc. }
    rewrite (frame_shared config _ _ _ _ _ Hframe Hin Hsg Hfs) in Hid.
    split; [|done].
    destruct Hshared as [H1 H2 H3 (p4 & H4 & _) H5 H6 H7 H8 H9 H10 H11
                           (p12 & H12 & _) (g13 & H13 & _) H14 _].
    unfold sharedIds in Hin.
    destruct (truthy (snsEmailAddress config)); simpl in Hin;
      repeat (apply elem_of_cons in Hin as [->|Hin]);
      try (by destruct (not_elem_of_nil _ Hin));
      try (by left); try (by right);
      match goal with
      | H : st0 !! ?i = Some _, H' : st0 !! ?i = Some c |- _ =>
          rewrite H in H'; injection H' as <-; discriminate Hc
      end.
  - destruct Hin as (k & [d Hd] & Hin).
    destruct (Hnodes k d Hd) as [docker [N1 N2 N3 N4 N5 N6 N7 N8]].
    unfold perServerIds, perServerPrefixes in Hin. simpl in Hin.
    repeat (apply elem_of_cons in Hin as [->|Hin]);
      try (by destruct (not_elem_of_nil _ Hin));
      match goal with
      | H : st !! ?i = Some _, H' : st !! ?i = Some c |- _ =>
          rewrite H in H'; injection H' as <-; discriminate Hc
      end.
Qed.

(** Every shared id holds a construct. *)
Lemma sharedNodes_present config st id :
  sharedNodes config st → id ∈ sharedIds config → is_Some (st !! id).
Proof.
  intros [H1 H2 H3 (p4 & H4 & _) H5 H6 H7 H8 H9 H10 H11 (p12 & H12 & _)
            (g13 & H13 & _) H14 _] Hin.
  unfold sharedIds in Hin.
  destruct (truthy (snsEmailAddress config)); simpl in Hin;
    repeat (apply elem_of_cons in Hin as [->|Hin]);
    try (by destruct (not_elem_of_nil _ Hin));
    by eexists.
Qed.

(** The build for the empty map of server definitions. *)
Lemma synth_empty docker config :
  minecraftServerDefs config = ∅ →
  ∃ st,
    synth docker config = Ok st
    ∧ sharedResources config ∅ = Ok (sharedRefs config, st)
    ∧ sharedNodes config st
    ∧ (∀ id, is_Some (st !! id) → id ∈ sharedIds config)
    ∧ (∀ key id, id ∈ perServerIds key → st !! id = None)
    ∧ st !! "ServiceSecurityGroup" =
        Some (CSecurityGroup
          {| sg_vpc := "Vpc";
             sg_description := "Security group for Minecraft on-demand";
             sg_ingress := [] |}).
Proof.
  intros Hempty.
  destruct (synth_run docker config)
    as (st0 & st & Hrun & Hshared & Hsynth & Hnodes & Hframe).
  rewrite Hempty in Hframe. unfold Object_keys in Hframe.
  rewrite map_to_list_empty, map_size_empty in Hframe.
  destruct Hframe as [Hsg Hfs Hother].
  assert (st = st0) as ->.
  { apply map_eq. intros id.
    destruct (decide (id = "ServiceSecurityGroup")) as [->|?].
    { rewrite Hsg. destruct (st0 !! "ServiceSecurityGroup"); reflexivity. }
    destruct (decide (id = "FileSystem")) as [->|?].
    { rewrite Hfs. destruct (st0 !! "FileSystem"); reflexivity. }
    apply Hother; [|done..]. apply not_elem_of_nil. }
  exists st0. split; [done|]. split; [done|]. split; [done|].
  split; [|split].
  - intros id Hid. destruct (decide (id ∈ sharedIds config)); [done|].
    rewrite (shared_only _ _ Hshared) in Hid by done. by destruct Hid.
  - intros key id Hid. apply (shared_only _ _ Hshared). intros Hin.
    by apply (sharedIds_not_perServer config id key).
  - apply (shared_securityGroup _ _ Hshared).
Qed.

(** C1.  For every tenant map with at least one key (so also with two
    or more keys, which all use the edition of the config), the shared
    service security group ends up with exactly one ingress rule, the one
    for the port and protocol of the edition; adding a further tenant
    leaves the security group as it is. *)
Theorem one_ingress_rule_for_the_edition docker config :
  minecraftServerDefs config ≠ ∅ →
  ∃ st g,
    synth docker config = Ok st
    ∧ st !! "ServiceSecurityGroup" = Some (CSecurityGroup g)
    ∧ sg_ingress g = [ editionRule config ]
    ∧ ∀ key d,
        minecraftServerDefs config !! key = None →
        ∃ st',
          synth docker
            (withServerDefs config
               (<[key := d]> (minecraftServerDefs config))) = Ok st'
          ∧ st' !! "ServiceSecurityGroup" = Some (CSecurityGroup g).
Proof.
  intros Hne.
  destruct (synth_securityGroup docker config) as (st & Hsynth & Hsg).
  apply map_size_non_empty_iff in Hne.
  destruct (size (minecraftServerDefs config)) as [|n] eqn:Hsize; [done|].
  eexists st, _. split; [done|]. split; [exact Hsg|]. split; [done|].
  intros key d Hkey.
  destruct (synth_securityGroup docker
              (withServerDefs config
                 (<[key := d]> (minecraftServerDefs config))))
    as (st' & Hsynth' & Hsg').
  exists st'. split; [done|]. rewrite Hsg'. simpl minecraftServerDefs.
  by rewrite map_size_insert_None.
Qed.


(** C3 (amended).  For all distinct tenant keys k1 and k2, the resource
    scopes of the control policy of k1 are the service of k1, every task
    of the cluster and, for the one action that describes network
    interfaces, all resources; the resource scope of its DNS-edit policy is
    the hosted zone.  The service of k2 is not among them, and no
    statement that grants other actions than describing network interfaces
    reaches it. *)
Theorem policy_scopes_of_a_server docker config k1 k2 d1 d2 :
  k1 ≠ k2 →
  minecraftServerDefs config !! k1 = Some d1 →
  minecraftServerDefs config !! k2 = Some d2 →
  ∃ st control dns,
    synth docker config = Ok st
    ∧ st !! ("ServiceControlPolicy-" +:+ k1) = Some (CPolicy control)
    ∧ st !! ("IamRoute53Policy-" +:+ k1) = Some (CPolicy dns)
    ∧ resourceScopes (CPolicy control) =
        [ Attr ("FargateService-" +:+ k1) "serviceArn";
          ArnFormat "ecs" "task" (CLUSTER_NAME constants +:+ "/*");
          Str "*" ]
    ∧ resourceScopes (CPolicy dns) =
        [ Template "arn:aws:route53:::hostedzone/"
            (getParameterValue "Route53HostedZoneIdReader") ]
    ∧ (Attr ("FargateService-" +:+ k2) "serviceArn"
         ∉ resourceScopes (CPolicy control) ++ resourceScopes (CPolicy dns))
    ∧ ∀ s scope,
        s ∈ statements control ++ statements dns →
        scope ∈ resources s →
        covers scope (ServiceOf k2) = true →
        actions s = [ "ec2:DescribeNetworkInterfaces" ].
Proof.
  intros Hne Hd1 Hd2.
  destruct (synth_run docker config)
    as (st0 & st & _ & _ & Hsynth & Hnodes & _).
  destruct (Hnodes k1 d1 Hd1) as [_ _ _ _ Hcontrol _ _ Hdns].
  assert (Hsvc : Attr ("FargateService-" +:+ k2) "serviceArn"
                 ≠ Attr ("FargateService-" +:+ k1) "serviceArn").
  { intros H. cbv [String.append] in H. congruence. }
  eexists st, _, _. split; [done|].
  split; [exact Hcontrol|]. split; [exact Hdns|].
  split; [done|]. split; [done|]. split.
  - simpl. intros Hin.
    repeat (apply elem_of_cons in Hin as [Hin|Hin]); try done.
    by destruct (not_elem_of_nil _ Hin).
  - intros s scope Hs Hscope Hcov.
    apply covers_service in Hcov as [->| ->]; simpl in Hs;
      repeat (apply elem_of_cons in Hs as [->|Hs]);
      try (by destruct (not_elem_of_nil _ Hs));
      try reflexivity; exfalso; simpl in Hscope;
      repeat (apply elem_of_cons in Hscope as [Hscope|Hscope]);
      first [ by destruct (not_elem_of_nil _ Hscope)
            | discriminate Hscope
            | by apply Hsvc ].
Qed.

(** C4.  Every tenant's task definition references the one task role that
    the shared part creates before the loop, and every per-tenant
    service-control policy and DNS-edit policy is attached to that role:
    for every pair of tenant keys, the role of the task of the first is
    among the roles of both policies of the second. *)
Theorem one_task_role_for_all_servers docker config :
  ∃ st0 st,
    sharedResources config ∅ = Ok (sharedRefs config, st0)
    ∧ ecsTaskRole (sharedRefs config) = "TaskRole"
    ∧ st0 !! "TaskRole" =
        Some (CRole (RoleNew "ecs-tasks.amazonaws.com"
                       "Minecraft ECS task role"))
    ∧ synth docker config = Ok st
    ∧ st !! "TaskRole" = st0 !! "TaskRole"
    ∧ (∀ key d,
         minecraftServerDefs config !! key = Some d →
         ∃ t control dns,
           st !! ("TaskDefinition-" +:+ key) = Some (CTaskDefinition t)
           ∧ taskRole t = "TaskRole"
           ∧ st !! ("ServiceControlPolicy-" +:+ key) = Some (CPolicy control)
           ∧ "TaskRole" ∈ roles control
           ∧ st !! ("IamRoute53Policy-" +:+ key) = Some (CPolicy dns)
           ∧ "TaskRole" ∈ roles dns)
    ∧ ∀ k1 k2 d1 d2,
        minecraftServerDefs config !! k1 = Some d1 →
        minecraftServerDefs config !! k2 = Some d2 →
        ∃ t control dns,
          st !! ("TaskDefinition-" +:+ k1) = Some (CTaskDefinition t)
          ∧ st !! ("ServiceControlPolicy-" +:+ k2) = Some (CPolicy control)
          ∧ taskRole t ∈ roles control
          ∧ st !! ("IamRoute53Policy-" +:+ k2) = Some (CPolicy dns)
          ∧ taskRole t ∈ roles dns.
Proof.
  destruct (synth_run docker config)
    as (st0 & st & Hrun & Hshared & Hsynth & Hnodes & Hframe).
  exists st0, st. split; [done|]. split; [done|].
  split; [apply (shared_taskRole _ _ Hshared)|]. split; [done|].
  split; [apply (frame_shared config _ _ _ _ _ Hframe); [in_list|done..]|].
  split.
  - intros key d Hd.
    destruct (Hnodes key d Hd) as [Htd _ _ _ Hcontrol _ _ Hdns].
    eexists _, _, _. split; [exact Htd|]. split; [done|].
    split; [exact Hcontrol|]. split; [in_list|].
    split; [exact Hdns|]. in_list.
  - intros k1 k2 d1 d2 Hd1 Hd2.
    destruct (Hnodes k1 d1 Hd1) as [Htd _ _ _ _ _ _ _].
    destruct (Hnodes k2 d2 Hd2) as [_ _ _ _ Hcontrol _ _ Hdns].
    eexists _, _, _. split; [exact Htd|].
    split; [exact Hcontrol|]. split; [in_list|].
    split; [exact Hdns|]. in_list.
Qed.

(** C6.  If an operator email is configured, exactly one notification
    topic and one email subscription to it are created, whatever the
    number of tenants, and the task role is granted to publish; if none is
    configured, neither is created and the topic identifier is the empty
    string.  In both cases the watchdog environment of every tenant
    carries that one topic identifier. *)
Theorem notification_topic docker config :
  ∃ st,
    synth docker config = Ok st
    ∧ (if truthy (snsEmailAddress config)
       then
         st !! "ServerSnsTopic" =
           Some (CTopic {| displayName := "Minecraft Server Notifications";
                           publishGrants := [ "TaskRole" ] |})
         ∧ st !! "EmailSubscription" =
             Some (CSubscription
               {| sub_protocol := EMAIL; sub_topic := "ServerSnsTopic";
                  sub_endpoint := snsEmailAddress config |})
         ∧ (∀ id t, st !! id = Some (CTopic t) → id = "ServerSnsTopic")
         ∧ (∀ id s,
              st !! id = Some (CSubscription s) → id = "EmailSubscription")
         ∧ topicArn config = Attr "ServerSnsTopic" "topicArn"
       else
         (∀ id c, st !! id = Some c → isNotification c = false)
         ∧ topicArn config = Str "")
    ∧ ∀ key d,
        minecraftServerDefs config !! key = Some d →
        ∃ w env,
          st !! ("WatchDogContainer-" +:+ key) = Some (CContainer w)
          ∧ environment w = Some env
          ∧ ∀ v, ("SNSTOPIC", v) ∈ env ↔ v = topicArn config.
Proof.
  destruct (synth_run docker config)
    as (st0 & st & _ & Hshared & Hsynth & Hnodes & Hframe).
  assert (Hnotif : ∀ id c, st !! id = Some c → isNotification c = true →
            (id = "ServerSnsTopic" ∨ id = "EmailSubscription")
            ∧ st0 !! id = Some c).
  { intros id c. apply (synth_notification config st0 st id c); try done.
    intros k d Hd. exists docker. by apply Hnodes. }
  assert (Htopic : st !! "ServerSnsTopic" = st0 !! "ServerSnsTopic").
  { apply (frame_other _ _ _ _ _ Hframe); try done.
    intros Hin. apply list_elem_of_bind in Hin as (k & Hin & _).
    revert Hin. apply allSharedIds_not_perServer.
    in_list. }
  assert (Hsub : st !! "EmailSubscription" = st0 !! "EmailSubscription").
  { apply (frame_other _ _ _ _ _ Hframe); try done.
    intros Hin. apply list_elem_of_bind in Hin as (k & Hin & _).
    revert Hin. apply allSharedIds_not_perServer.
    in_list. }
  rewrite (shared_topic _ _ Hshared) in Htopic.
  rewrite (shared_subscription _ _ Hshared) in Hsub.
  pose proof (shared_topic _ _ Hshared) as Htopic0.
  pose proof (shared_subscription _ _ Hshared) as Hsub0.
  exists st. split; [done|]. split.
  - unfold topicArn.
    destruct (truthy (snsEmailAddress config)).
    + split; [done|]. split; [done|]. split; [|split; [|done]].
      * intros id t Hid.
        destruct (Hnotif id (CTopic t) Hid eq_refl) as [[->| ->] H0];
          [done|congruence].
      * intros id s Hid.
        destruct (Hnotif id (CSubscription s) Hid eq_refl) as [[->| ->] H0];
          [congruence|done].
    + split; [|done]. intros id c Hid.
      destruct (isNotification c) eqn:Hc; [|done].
      destruct (Hnotif id c Hid Hc) as [[->| ->] H0]; congruence.
  - intros key d Hd.
    destruct (Hnodes key d Hd) as [_ _ _ Hw _ _ _ _].
    eexists _, _. split; [exact Hw|]. split; [done|].
    intros v. split.
    + intros Hin.
      repeat (apply elem_of_cons in Hin as [Hin|Hin]);
        try (by destruct (not_elem_of_nil _ Hin));
        by injection Hin.
    + intros ->. in_list.
Qed.

(** C7.  For every tenant key, the watchdog container of the key is
    essential, belongs to the task definition of the server container,
    has the one mount point the server container has, and receives as its
    environment the cluster name, the name of the service of the key (the
    service-name prefix, a dash and the key), the value of the hosted-zone
    parameter, the host name of the key under the domain, the topic
    identifier, the Twilio credentials and the startup and shutdown
    minutes. *)
Theorem watchdog_container docker config key d :
  minecraftServerDefs config !! key = Some d →
  ∃ st w server svc,
    synth docker config = Ok st
    ∧ st !! ("WatchDogContainer-" +:+ key) = Some (CContainer w)
    ∧ st !! ("ServerContainer-" +:+ key) = Some (CContainer server)
    ∧ st !! ("FargateService-" +:+ key) = Some (CService svc)
    ∧ st !! "Cluster" =
        Some (CCluster
          {| clusterName := CLUSTER_NAME constants; cluster_vpc := "Vpc";
             containerInsights := false;
             enableFargateCapacityProviders := true |})
    ∧ st !! "Route53HostedZoneIdReader" =
        Some (CSSMParameterReader
          {| parameterName := HOSTED_ZONE_SSM_PARAMETER constants;
             region := DOMAIN_STACK_REGION constants |})
    ∧ essential w = true
    ∧ cd_taskDefinition w = cd_taskDefinition server
    ∧ svc_taskDefinition svc = cd_taskDefinition w
    ∧ mountPoints w =
        [ {| containerPath := "/minecraft";
             sourceVolume := ECS_VOLUME_NAME constants;
             readOnly := false |} ]
    ∧ mountPoints server = mountPoints w
    ∧ (∃ t,
         st !! cd_taskDefinition w = Some (CTaskDefinition t)
         ∧ vol_name <$> volumes t = sourceVolume <$> mountPoints w)
    ∧ serviceName svc = SERVICE_NAME constants +:+ "-" +:+ key
    ∧ environment w = Some
        [ ("CLUSTER", Str (CLUSTER_NAME constants));
          ("SERVICE", Str (serviceName svc));
          ("DNSZONE", getParameterValue "Route53HostedZoneIdReader");
          ("SERVERNAME", Str (key +:+ "." +:+ domainName config));
          ("SNSTOPIC", topicArn config);
          ("TWILIOFROM", Str (phoneFrom (twilio config)));
          ("TWILIOTO", Str (phoneTo (twilio config)));
          ("TWILIOAID", Str (accountId (twilio config)));
          ("TWILIOAUTH", Str (authCode (twilio config)));
          ("STARTUPMIN", Str (startupMinutes config));
          ("SHUTDOWNMIN", Str (shutdownMinutes config)) ].
Proof.
  intros Hd.
  destruct (synth_run docker config)
    as (st0 & st & _ & Hshared & Hsynth & Hnodes & Hframe).
  destruct (Hnodes key d Hd) as [Htd Hserver Hsvc Hw _ _ _ _].
  eexists st, _, _, _. split; [done|].
  split; [exact Hw|]. split; [exact Hserver|]. split; [exact Hsvc|].
  split.
  { rewrite <- (shared_cluster _ _ Hshared).
    apply (frame_shared config _ _ _ _ _ Hframe); [in_list|done..]. }
  split.
  { rewrite <- (shared_hostedZoneIdReader _ _ Hshared).
    apply (frame_shared config _ _ _ _ _ Hframe); [in_list|done..]. }
  split; [done|]. split; [done|]. split; [done|]. split; [done|].
  split; [done|]. split; [|done].
  eexists. split; [exact Htd|]. done.
Qed.

(** C8.  For every tenant key, the service of the key is created with
    desired count zero, one capacity-provider strategy of weight 1 and
    base 1 that is spot when the spot flag of the config is set and
    standard otherwise, public address assignment enabled, and the shared
    security group as its only security group. *)
Theorem compute_service docker config key d :
  minecraftServerDefs config !! key = Some d →
  ∃ st svc g,
    synth docker config = Ok st
    ∧ st !! ("FargateService-" +:+ key) = Some (CService svc)
    ∧ desiredCount svc = 0
    ∧ capacityProviderStrategies svc =
        [ {| capacityProvider :=
               if useFargateSpot config then FARGATE_SPOT else FARGATE;
             weight := 1;
             base := 1 |} ]
    ∧ assignPublicIp svc = true
    ∧ securityGroups svc = [ "ServiceSecurityGroup" ]
    ∧ st !! "ServiceSecurityGroup" = Some (CSecurityGroup g)
    ∧ svc_cluster svc = "Cluster"
    ∧ svc_taskDefinition svc = "TaskDefinition-" +:+ key.
Proof.
  intros Hd.
  destruct (synth_run docker config)
    as (st0 & st & _ & Hshared & Hsynth & Hnodes & Hframe).
  destruct (synth_securityGroup docker config) as (st' & Hsynth' & Hsg).
  assert (st' = st) as -> by congruence.
  destruct (Hnodes key d Hd) as [_ _ Hsvc _ _ _ _ _].
  eexists st, _, _. split; [done|]. split; [exact Hsvc|].
  repeat split. exact Hsg.
Qed.

(** C9.  For the empty tenant map, building the topology succeeds and
    yields the shared nodes only: the tree is the one the shared part
    leaves, with the network, the file system, the access point, the
    cluster, the security group and the maintenance host; its ids are the
    shared ids, no construct of a server is in it, and the shared service
    security group has no ingress rule. *)
Theorem empty_tenant_map docker config :
  minecraftServerDefs config = ∅ →
  ∃ st,
    synth docker config = Ok st
    ∧ sharedResources config ∅ = Ok (sharedRefs config, st)
    ∧ (∃ v f a c g l,
         st !! "Vpc" = Some (CVpc v)
         ∧ st !! "FileSystem" = Some (CFileSystem f)
         ∧ st !! "AccessPoint" = Some (CAccessPoint a)
         ∧ st !! "Cluster" = Some (CCluster c)
         ∧ st !! "ServiceSecurityGroup" = Some (CSecurityGroup g)
         ∧ sg_ingress g = []
         ∧ st !! "EFSMaintenanceLaunchTemplate" = Some (CLaunchTemplate l))
    ∧ (∀ id, is_Some (st !! id) ↔ id ∈ sharedIds config)
    ∧ (∀ key id, id ∈ perServerIds key → st !! id = None).
Proof.
  intros Hempty.
  destruct (synth_empty docker config Hempty)
    as (st & Hsynth & Hrun & Hshared & Hdom & Hnone & Hsg).
  exists st. split; [done|]. split; [done|]. split; [|split; [|done]].
  - eexists _, _, _, _, _, _.
    split; [apply (shared_vpc _ _ Hshared)|].
    split; [apply (shared_fileSystem _ _ Hshared)|].
    split; [apply (shared_accessPoint _ _ Hshared)|].
    split; [apply (shared_cluster _ _ Hshared)|].
    split; [exact Hsg|]. split; [reflexivity|].
    apply (shared_launchTemplate _ _ Hshared).
  - intros id. split; [apply Hdom|]. by apply sharedNodes_present.
Qed.

(** C10.  Two builds of the same configuration, also on hosts that differ
    in whether docker is installed, both succeed and give every tenant
    key the same construct ids, the same task definition, the same
    service with the same name, the same container names and the same
    policies with the same resource scopes. *)
Theorem same_names_and_scopes docker1 docker2 config :
  ∃ st1 st2,
    synth docker1 config = Ok st1
    ∧ synth docker2 config = Ok st2
    ∧ (∀ id, is_Some (st1 !! id) ↔ is_Some (st2 !! id))
    ∧ ∀ key d,
        minecraftServerDefs config !! key = Some d →
        is_Some (st1 !! ("TaskDefinition-" +:+ key))
        ∧ st1 !! ("TaskDefinition-" +:+ key)
            = st2 !! ("TaskDefinition-" +:+ key)
        ∧ (∃ svc,
             st1 !! ("FargateService-" +:+ key) = Some (CService svc)
             ∧ st2 !! ("FargateService-" +:+ key) = Some (CService svc)
             ∧ serviceName svc = SERVICE_NAME constants +:+ "-" +:+ key)
        ∧ (∃ server,
             st1 !! ("ServerContainer-" +:+ key) = Some (CContainer server)
             ∧ st2 !! ("ServerContainer-" +:+ key) = Some (CContainer server)
             ∧ containerName server =
                 MC_SERVER_CONTAINER_NAME constants +:+ "-" +:+ key)
        ∧ (∃ w1 w2,
             st1 !! ("WatchDogContainer-" +:+ key) = Some (CContainer w1)
             ∧ st2 !! ("WatchDogContainer-" +:+ key) = Some (CContainer w2)
             ∧ containerName w1 = containerName w2
             ∧ containerName w1 =
                 WATCHDOG_SERVER_CONTAINER_NAME constants +:+ "-" +:+ key)
        ∧ (∃ control dns,
             st1 !! ("ServiceControlPolicy-" +:+ key) = Some (CPolicy control)
             ∧ st2 !! ("ServiceControlPolicy-" +:+ key)
                 = Some (CPolicy control)
             ∧ st1 !! ("IamRoute53Policy-" +:+ key) = Some (CPolicy dns)
             ∧ st2 !! ("IamRoute53Policy-" +:+ key) = Some (CPolicy dns)
             ∧ resourceScopes (CPolicy control) =
                 [ Attr ("FargateService-" +:+ key) "serviceArn";
                   ArnFormat "ecs" "task" (CLUSTER_NAME constants +:+ "/*");
                   Str "*" ]
             ∧ resourceScopes (CPolicy dns) =
                 [ Template "arn:aws:route53:::hostedzone/"
                     (getParameterValue "Route53HostedZoneIdReader") ]).
Proof.
  destruct (synth_run docker1 config)
    as (st0 & st1 & Hrun1 & Hshared1 & Hsynth1 & Hnodes1 & Hframe1).
  destruct (synth_run docker2 config)
    as (st0' & st2 & Hrun2 & Hshared2 & Hsynth2 & Hnodes2 & Hframe2).
  assert (st0' = st0) as -> by congruence.
  exists st1, st2. split; [done|]. split; [done|].
  split.
  { assert (Hsame : ∀ sta stb docker,
      perServerFrame config
        (Object_keys (minecraftServerDefs config) ≫= perServerIds)
        (size (minecraftServerDefs config)) st0 sta →
      perServerFrame config
        (Object_keys (minecraftServerDefs config) ≫= perServerIds)
        (size (minecraftServerDefs config)) st0 stb →
      (∀ k d, minecraftServerDefs config !! k = Some d →
         perServerNodes docker config k d stb) →
      ∀ id, is_Some (sta !! id) → is_Some (stb !! id)).
    { intros sta stb docker Ha Hb Hnb id Hid.
      destruct (decide (id ∈ Object_keys (minecraftServerDefs config)
                               ≫= perServerIds)) as [Hin|Hnin].
      - apply list_elem_of_bind in Hin as (k & Hin & Hk).
        apply elem_of_Object_keys in Hk as [dk Hdk].
        destruct (Hnb k dk Hdk) as [N1 N2 N3 N4 N5 N6 N7 N8].
        unfold perServerIds, perServerPrefixes in Hin. simpl in Hin.
        repeat (apply elem_of_cons in Hin as [->|Hin]);
          try (by destruct (not_elem_of_nil _ Hin)); by eexists.
      - destruct (decide (id = "ServiceSecurityGroup")) as [->|?].
        { rewrite (frame_securityGroup _ _ _ _ _ Hb).
          rewrite (frame_securityGroup _ _ _ _ _ Ha) in Hid.
          destruct (st0 !! _); [by eexists|by destruct Hid]. }
        destruct (decide (id = "FileSystem")) as [->|?].
        { rewrite (frame_fileSystem _ _ _ _ _ Hb).
          rewrite (frame_fileSystem _ _ _ _ _ Ha) in Hid.
          destruct (st0 !! _); [by eexists|by destruct Hid]. }
        rewrite (frame_other _ _ _ _ _ Hb) by done.
        by rewrite (frame_other _ _ _ _ _ Ha) in Hid by done. }
    intros id. split; [by apply (Hsame st1 st2 docker2)
                      |by apply (Hsame st2 st1 docker1)]. }
  intros key d Hd.
  destruct (Hnodes1 key d Hd) as [A1 A2 A3 A4 A5 A6 A7 A8].
  destruct (Hnodes2 key d Hd) as [B1 B2 B3 B4 B5 B6 B7 B8].
  split; [rewrite A1; by eexists|]. split; [by rewrite A1, B1|].
  split; [eexists; split; [exact A3|split; [exact B3|done]]|].
  split; [eexists; split; [exact A2|split; [exact B2|done]]|].
  split; [eexists _, _; split; [exact A4|split; [exact B4|done]]|].
  eexists _, _. split; [exact A5|]. split; [exact B5|].
  split; [exact A8|]. split; [exact B8|]. done.
Qed.

(** ** Further properties of the constructor *)

Lemma NoDup_perServerIds key : NoDup (perServerIds key).
Proof.
  unfold perServerIds, perServerPrefixes. simpl.
  repeat (apply NoDup_cons_2;
          [ rewrite ?not_elem_of_cons; repeat split;
            first [ apply not_elem_of_nil | ids_neq ] | ]).
  apply NoDup_nil_2.
Qed.

Lemma NoDup_sharedIds config : NoDup (sharedIds config).
Proof.
  unfold sharedIds. destruct (truthy _); simpl;
    repeat (apply NoDup_cons_2;
            [ rewrite ?not_elem_of_cons; repeat split;
              first [ apply not_elem_of_nil | discriminate ] | ]);
    apply NoDup_nil_2.
Qed.

Lemma length_perServerIds (ks : list string) :
  length (ks ≫= perServerIds) = (8 * length ks)%nat.
Proof.
  induction ks as [|k ks IH]; [done|].
  rewrite bind_cons, length_app, IH. simpl. lia.
Qed.

Lemma NoDup_allIds config :
  NoDup (sharedIds config
         ++ (Object_keys (minecraftServerDefs config) ≫= perServerIds)).
Proof.
  apply NoDup_app. split; [apply NoDup_sharedIds|]. split.
  - intros id Hin Hin'. apply list_elem_of_bind in Hin' as (k & Hin' & _).
    by apply (sharedIds_not_perServer config id k).
  - apply NoDup_bind.
    + intros k1 k2 id _ _. apply perServerIds_inj.
    + intros k _. apply NoDup_perServerIds.
    + apply NoDup_fst_map_to_list.
Qed.

(** X1.  In a build that completes, the ids under which the constructor
    has created constructs are those of the shared part and eight for each
    key of the map, no id twice. *)
Theorem tree_ids docker config (st : Stack) :
  synth docker config = Ok st →
  (∀ id,
     is_Some (st !! id)
     ↔ id ∈ sharedIds config
       ∨ ∃ key, is_Some (minecraftServerDefs config !! key)
                ∧ id ∈ perServerIds key)
  ∧ size st
    = (length (sharedIds config) + 8 * size (minecraftServerDefs config))%nat.
Proof.
  intros Hok.
  destruct (synth_run docker config)
    as (st0 & st1 & Hrun & Hshared & Hsynth & Hnodes & Hframe).
  assert (st1 = st) as -> by congruence.
  assert (Hdom : ∀ id,
    is_Some (st !! id)
    ↔ id ∈ sharedIds config
      ∨ ∃ key, is_Some (minecraftServerDefs config !! key)
               ∧ id ∈ perServerIds key).
  { intros id. split; [by apply (synth_dom config st0)|].
    intros [Hin|(key & [d Hd] & Hin)].
    - destruct (decide (id = "ServiceSecurityGroup")) as [->|Hsg].
      { rewrite (frame_securityGroup _ _ _ _ _ Hframe),
          (shared_securityGroup _ _ Hshared). by eexists. }
      destruct (decide (id = "FileSystem")) as [->|Hfs].
      { rewrite (frame_fileSystem _ _ _ _ _ Hframe),
          (shared_fileSystem _ _ Hshared). by eexists. }
      rewrite (frame_shared config _ _ _ _ _ Hframe Hin Hsg Hfs).
      by apply (sharedNodes_present config).
    - destruct (Hnodes key d Hd) as [N1 N2 N3 N4 N5 N6 N7 N8].
      unfold perServerIds, perServerPrefixes in Hin. simpl in Hin.
      repeat (apply elem_of_cons in Hin as [->|Hin]);
        try (by destruct (not_elem_of_nil _ Hin)); by eexists. }
  split; [done|].
  rewrite <- size_dom.
  assert (Heq : dom st
    = list_to_set (sharedIds config
        ++ (Object_keys (minecraftServerDefs config) ≫= perServerIds))).
  { apply set_eq. intros id.
    rewrite elem_of_dom, elem_of_list_to_set, elem_of_app, Hdom.
    split; intros [H|H]; [by left| |by left|].
    - right. destruct H as (key & Hkey & Hin).
      apply list_elem_of_bind. exists key. split; [done|].
      by apply elem_of_Object_keys.
    - right. apply list_elem_of_bind in H as (key & Hin & Hkey).
      exists key. split; [|done]. by apply elem_of_Object_keys. }
  rewrite Heq, size_list_to_set by apply NoDup_allIds.
  by rewrite length_app, length_perServerIds, length_Object_keys.
Qed.

Lemma iter_withDefaultPortFrom_succ n g c :
  Nat.iter (S n) (withDefaultPortFrom [g]) c = withDefaultPortFrom [g] c.
Proof.
  induction n as [|n IH]; [done|].
  change (Nat.iter (S (S n)) ?f c) with (f (Nat.iter (S n) f c)).
  rewrite IH. apply withDefaultPortFrom_twice.
Qed.

(** X2.  When the build from a map and the build from that map with one
    more server both complete, the second has the eight constructs of the
    new server and every other construct as the first has it, but for the
    shared security group and the file system, which change with the first
    server only: from the second server on, the old tree is a part of the
    new one. *)
Theorem adding_a_server_keeps_the_others docker config key d
    (st st' : Stack) :
  minecraftServerDefs config !! key = None →
  synth docker config = Ok st →
  synth docker
    (withServerDefs config (<[key := d]> (minecraftServerDefs config)))
    = Ok st' →
  (∀ id,
     is_Some (st !! id) →
     id ≠ "ServiceSecurityGroup" → id ≠ "FileSystem" →
     st' !! id = st !! id)
  ∧ (minecraftServerDefs config ≠ ∅ → st ⊆ st')
  ∧ ∀ id, id ∈ perServerIds key → st !! id = None ∧ is_Some (st' !! id).
Proof.
  intros Hkey Hok Hok'.
  set (config' :=
         withServerDefs config (<[key := d]> (minecraftServerDefs config)))
    in *.
  destruct (synth_run docker config)
    as (st0 & st1 & Hrun & Hshared & Hsynth & Hnodes & Hframe).
  assert (st1 = st) as -> by congruence.
  destruct (synth_run docker config')
    as (st0' & st1' & Hrun' & Hshared' & Hsynth' & Hnodes' & Hframe').
  assert (st1' = st') as -> by congruence.
  change (sharedResources config' ∅) with (sharedResources config ∅) in Hrun'.
  assert (st0' = st0) as -> by congruence.
  assert (Hkeep : ∀ id,
    is_Some (st !! id) →
    id ≠ "ServiceSecurityGroup" → id ≠ "FileSystem" →
    st' !! id = st !! id).
  { intros id Hid Hsg Hfs.
    destruct (synth_dom config st0 st id Hshared Hframe Hid)
      as [Hin|(k & [dk Hdk] & Hin)].
    - rewrite (frame_shared config _ _ _ _ _ Hframe Hin Hsg Hfs).
      apply (frame_shared config' _ _ _ _ _ Hframe' Hin Hsg Hfs).
    - assert (Hdk' : minecraftServerDefs config' !! k = Some dk).
      { simpl. rewrite lookup_insert_ne; [done|]. intros ->. congruence. }
      destruct (Hnodes k dk Hdk) as [A1 A2 A3 A4 A5 A6 A7 A8].
      destruct (Hnodes' k dk Hdk') as [B1 B2 B3 B4 B5 B6 B7 B8].
      unfold perServerIds, perServerPrefixes in Hin. simpl in Hin.
      repeat (apply elem_of_cons in Hin as [->|Hin]);
        try (by destruct (not_elem_of_nil _ Hin));
        first [ rewrite A1; exact B1 | rewrite A2; exact B2
              | rewrite A3; exact B3 | rewrite A4; exact B4
              | rewrite A5; exact B5 | rewrite A6; exact B6
              | rewrite A7; exact B7 | rewrite A8; exact B8 ]. }
  split; [done|].
  split.
  - intros Hne. apply map_size_non_empty_iff in Hne.
    destruct (size (minecraftServerDefs config)) as [|n] eqn:Hsize; [done|].
    assert (Hsize' : size (minecraftServerDefs config') = S (S n)).
    { simpl. by rewrite map_size_insert_None, Hsize. }
    apply map_subseteq_spec. intros id c Hid.
    destruct (decide (id = "ServiceSecurityGroup")) as [->|Hsg].
    { rewrite (frame_securityGroup _ _ _ _ _ Hframe'), Hsize'.
      rewrite (frame_securityGroup _ _ _ _ _ Hframe) in Hid.
      rewrite (shared_securityGroup _ _ Hshared) in Hid |- *.
      cbn [fmap option_fmap option_map] in Hid |- *.
      rewrite iter_withIngressRule in Hid.
      change (editionRule config') with (editionRule config).
      by rewrite iter_withIngressRule. }
    destruct (decide (id = "FileSystem")) as [->|Hfs].
    { rewrite (frame_fileSystem _ _ _ _ _ Hframe'), Hsize'.
      rewrite (frame_fileSystem _ _ _ _ _ Hframe) in Hid.
      rewrite (shared_fileSystem _ _ Hshared) in Hid |- *.
      cbn [fmap option_fmap option_map] in Hid |- *.
      rewrite iter_withDefaultPortFrom_succ in Hid.
      by rewrite iter_withDefaultPortFrom_succ. }
    rewrite Hkeep; [done|by eexists|done..].
  - intros id Hin. split.
    + apply eq_None_not_Some. intros Hid.
      destruct (synth_dom config st0 st id Hshared Hframe Hid)
        as [Hin'|(k & [dk Hdk] & Hin')].
      * by apply (sharedIds_not_perServer config id key).
      * rewrite (perServerIds_inj _ _ _ Hin' Hin) in Hdk. congruence.
    + destruct (Hnodes' key d) as [B1 B2 B3 B4 B5 B6 B7 B8].
      { simpl. apply lookup_insert_eq. }
      unfold perServerIds, perServerPrefixes in Hin. simpl in Hin.
      repeat (apply elem_of_cons in Hin as [->|Hin]);
        try (by destruct (not_elem_of_nil _ Hin)); by eexists.
Qed.


(** X4.  The control policy of a server is attached to the task role and to the
    launcher role of that server, which is the role whose ARN the parameter
    of the key holds in the region of the domain stack; the DNS-edit policy
    is attached to the task role alone.  The launcher role of another key
    is on neither. *)
Theorem launcher_role_of_a_server docker config key d :
  minecraftServerDefs config !! key = Some d →
  ∃ st control dns,
    synth docker config = Ok st
    ∧ st !! ("launcherLambdaRoleArn-" +:+ key) =
        Some (CSSMParameterReader
          {| parameterName :=
               LAUNCHER_LAMBDA_ARN_SSM_PARAMETER constants +:+ "-" +:+ key;
             region := DOMAIN_STACK_REGION constants |})
    ∧ st !! ("LauncherLambdaRole-" +:+ key) =
        Some (CRole (RoleFromArn
          (getParameterValue ("launcherLambdaRoleArn-" +:+ key))))
    ∧ st !! ("ServiceControlPolicy-" +:+ key) = Some (CPolicy control)
    ∧ roles control = [ "TaskRole"; "LauncherLambdaRole-" +:+ key ]
    ∧ st !! ("IamRoute53Policy-" +:+ key) = Some (CPolicy dns)
    ∧ roles dns = [ "TaskRole" ]
    ∧ ∀ key',
        key' ≠ key →
        "LauncherLambdaRole-" +:+ key' ∉ roles control ++ roles dns.
Proof.
  intros Hd.
  destruct (synth_run docker config)
    as (st0 & st & _ & _ & Hsynth & Hnodes & _).
  destruct (Hnodes key d Hd) as [_ _ _ _ Hcontrol Hreader Hrole Hdns].
  eexists st, _, _. split; [done|]. split; [exact Hreader|].
  split; [exact Hrole|]. split; [exact Hcontrol|]. split; [reflexivity|].
  split; [exact Hdns|]. split; [reflexivity|].
  intros key' Hne. simpl.
  rewrite !not_elem_of_cons. repeat split; try ids_neq.
  apply not_elem_of_nil.
Qed.

(** X5.  The loop body cannot run twice for one key: in a tree that holds the
    task definition of the key it throws, so a second run for the key
    throws in whatever tree the first one started. *)
Theorem second_run_for_a_key_throws docker config key d (st : Stack) :
  minecraftServerDefs config !! key = Some d →
  (is_Some (st !! ("TaskDefinition-" +:+ key)) →
   perServer docker config (sharedRefs config) key st
   = Throw (ConstructExists ("TaskDefinition-" +:+ key)))
  ∧ (fresh key st →
     (perServer docker config (sharedRefs config) key;;
      perServer docker config (sharedRefs config) key) st
     = Throw (ConstructExists ("TaskDefinition-" +:+ key))).
Proof.
  intros Hd.
  assert (Hthrow : ∀ st1 : Stack,
    is_Some (st1 !! ("TaskDefinition-" +:+ key)) →
    perServer docker config (sharedRefs config) key st1
    = Throw (ConstructExists ("TaskDefinition-" +:+ key))).
  { intros st1 [c Hc]. unfold perServer, addIngressRule.
    rewrite (run_index _ _ _ _ _ Hd). cbv beta zeta.
    cbn [serviceSecurityGroup sharedRefs]. rewrite run_mutate.
    unfold mbind, Build_bind, new.
    rewrite lookup_alter_ne by ids_neq. by rewrite Hc. }
  split; [apply Hthrow|]. intros Hfresh.
  destruct (perServer_run docker config key d st Hd Hfresh)
    as (st1 & Hrun & Hnodes & _).
  unfold mbind, Build_bind at 1. rewrite Hrun. apply Hthrow.
  rewrite (node_taskDefinition _ _ _ _ _ Hnodes). by eexists.
Qed.

(** The default sizes of a task in the config are not read by the
    constructor. *)
Lemma synth_withTaskSize docker config cpuUnits memoryMiB :
  synth docker (withTaskSize config cpuUnits memoryMiB) = synth docker config.
Proof. reflexivity. Qed.

(** The constructs of the maintenance host are among the shared ones,
    with or without the notification topic. *)
Lemma maintenance_ids_shared config id :
  id ∈ [ "EFSMaintenanceRole"; "SSMManagedInstanceCorePolicy";
         "EfsMaintenanceSecurityGroup"; "EFSMaintenanceLaunchTemplate" ] →
  id ∈ sharedIds config.
Proof.
  intros Hin. unfold sharedIds.
  destruct (truthy (snsEmailAddress config)); simpl;
    repeat (apply elem_of_cons in Hin as [->|Hin]);
    try (by destruct (not_elem_of_nil _ Hin)); in_list.
Qed.

(** The shared security group after the loop. *)
Lemma securityGroup_after_loop config ids n st0 st :
  sharedNodes config st0 →
  perServerFrame config ids n st0 st →
  st !! "ServiceSecurityGroup" =
    Some (CSecurityGroup
      {| sg_vpc := "Vpc";
         sg_description := "Security group for Minecraft on-demand";
         sg_ingress :=
           match n with
           | O => []
           | S _ => [ editionRule config ]
           end |}).
Proof.
  intros Hshared Hframe.
  rewrite (frame_securityGroup _ _ _ _ _ Hframe),
    (shared_securityGroup _ _ Hshared).
  destruct n as [|n]; [done|].
  cbn [fmap option_fmap option_map]. by rewrite iter_withIngressRule.
Qed.

(** The file system after the loop. *)
Lemma fileSystem_after_loop config ids n st0 st :
  sharedNodes config st0 →
  perServerFrame config ids n st0 st →
  st !! "FileSystem" =
    Some (CFileSystem
      {| fs_vpc := "Vpc";
         fs_removalPolicy := SNAPSHOT;
         fs_allowDefaultPortFrom :=
           match n with
           | O => [ "EfsMaintenanceSecurityGroup" ]
           | S _ => [ "EfsMaintenanceSecurityGroup"; "ServiceSecurityGroup" ]
           end |}).
Proof.
  intros Hshared Hframe.
  rewrite (frame_fileSystem _ _ _ _ _ Hframe),
    (shared_fileSystem _ _ Hshared).
  destruct n as [|n]; [done|].
  cbn [fmap option_fmap option_map].
  by rewrite iter_withDefaultPortFrom_succ.
Qed.

(** The policies and the security group of the shared part that the
    properties below read in full. *)
Lemma sharedResources_policies config :
  ∃ st0,
    sharedResources config ∅ = Ok (sharedRefs config, st0)
    ∧ st0 !! "DataRWPolicy" =
        Some (CPolicy
          {| statements :=
               [ {| sid := Some "AllowReadWriteOnEFS";
                    effect := ALLOW;
                    actions := [ "elasticfilesystem:ClientMount";
                                 "elasticfilesystem:ClientWrite";
                                 "elasticfilesystem:DescribeFileSystems" ];
                    resources := [ Attr "FileSystem" "fileSystemArn" ];
                    conditions :=
                      [ ("StringEquals", "elasticfilesystem:AccessPointArn",
                         Attr "AccessPoint" "accessPointArn") ] |} ];
             roles := [ "TaskRole"; "EFSMaintenanceRole" ] |})
    ∧ st0 !! "SSMManagedInstanceCorePolicy" =
        Some (CPolicy
          {| statements :=
               [ {| sid := Some "AllowSSMManagedInstance";
                    effect := ALLOW;
                    actions := ssmManagedInstanceCoreActions;
                    resources := [ Str "*" ];
                    conditions := [] |} ];
             roles := [ "EFSMaintenanceRole" ] |})
    ∧ st0 !! "EfsMaintenanceSecurityGroup" =
        Some (CSecurityGroup
          {| sg_vpc := "Vpc";
             sg_description :=
               "Security group for Minecraft on-demand EFS Maintenance Instances";
             sg_ingress := [] |}).
Proof.
  unfold sharedResources, notificationTopic, sharedRefs, topicArn,
    attachToRole, grantPublish, allowDefaultPortFrom.
  destruct (truthy (snsEmailAddress config)) eqn:Hemail.
  - eexists. split.
    + repeat first
        [ rewrite run_assoc
        | rewrite run_ret
        | rewrite run_mutate
        | rewrite run_new by (vm_compute; reflexivity)
        | erewrite run_connections_group by (vm_compute; reflexivity) ].
      reflexivity.
    + repeat split; vm_compute; reflexivity.
  - eexists. split.
    + repeat first
        [ rewrite run_assoc
        | rewrite run_ret
        | rewrite run_mutate
        | rewrite run_new by (vm_compute; reflexivity)
        | erewrite run_connections_group by (vm_compute; reflexivity) ].
      reflexivity.
    + repeat split; vm_compute; reflexivity.
Qed.

(** X6.  The server container of a key runs the image of the edition of the
    config on the one port of the edition, host port and container port the
    same, with the environment of the definition of the key (none when the
    definition has none), a pseudo terminal, and the shared volume mounted
    read-write; the loop leaves it so whatever other keys follow. *)
Theorem server_container docker config key d :
  minecraftServerDefs config !! key = Some d →
  ∃ st,
    synth docker config = Ok st
    ∧ st !! ("ServerContainer-" +:+ key) =
        Some (CContainer
          {| containerName := MC_SERVER_CONTAINER_NAME constants +:+ "-" +:+ key;
             cd_image :=
               fromRegistry
                 (image (getMinecraftServerConfig (minecraftEdition config)));
             portMappings :=
               [ {| containerPort :=
                      port (getMinecraftServerConfig (minecraftEdition config));
                    hostPort :=
                      port (getMinecraftServerConfig (minecraftEdition config));
                    pm_protocol :=
                      protocol
                        (getMinecraftServerConfig (minecraftEdition config)) |} ];
             environment := plainEnvironment <$> containerEnv d;
             entryPoint := [ "/minecraft/minecraft.sh" ];
             essential := true;
             pseudoTerminal := Some true;
             cd_taskDefinition := "TaskDefinition-" +:+ key;
             logging :=
               if debug config
               then Some {| logRetentionDays := 3;
                            streamPrefix := MC_SERVER_CONTAINER_NAME constants |}
               else None;
             mountPoints :=
               [ {| containerPath := "/minecraft";
                    sourceVolume := ECS_VOLUME_NAME constants;
                    readOnly := false |} ] |}).
Proof.
  intros Hd.
  destruct (synth_run docker config)
    as (st0 & st & _ & _ & Hsynth & Hnodes & _).
  exists st. split; [done|].
  by rewrite (node_serverContainer _ _ _ _ _ (Hnodes key d Hd)).
Qed.

(** X7.  Both containers of every server ship logs exactly when the debug flag
    of the config is set, for three days, under a stream prefix that does
    not hold the key. *)
Theorem log_drivers_only_in_debug docker config key d :
  minecraftServerDefs config !! key = Some d →
  ∃ st server w,
    synth docker config = Ok st
    ∧ st !! ("ServerContainer-" +:+ key) = Some (CContainer server)
    ∧ st !! ("WatchDogContainer-" +:+ key) = Some (CContainer w)
    ∧ (is_Some (logging server) ↔ debug config = true)
    ∧ (is_Some (logging w) ↔ debug config = true)
    ∧ (∀ driver,
         logging server = Some driver →
         logRetentionDays driver = 3
         ∧ streamPrefix driver = MC_SERVER_CONTAINER_NAME constants)
    ∧ ∀ driver,
        logging w = Some driver →
        logRetentionDays driver = 3
        ∧ streamPrefix driver = WATCHDOG_SERVER_CONTAINER_NAME constants.
Proof.
  intros Hd.
  destruct (synth_run docker config)
    as (st0 & st & _ & _ & Hsynth & Hnodes & _).
  destruct (Hnodes key d Hd) as [_ Hserver _ Hw _ _ _ _].
  eexists st, _, _. split; [done|]. split; [exact Hserver|].
  split; [exact Hw|]. simpl.
  destruct (debug config).
  - split; [by split; [|eexists]|]. split; [by split; [|eexists]|].
    by split; intros ? [= <-].
  - split; [by split; [intros [? ?]|]|]. split; [by split; [intros [? ?]|]|].
    by split.
Qed.

(** X8.  The storage of the tasks: the task definition of every key has the one
    volume of the shared file system, through the shared access point, with
    transit encryption and IAM authorization, and both containers of the key
    mount that volume at [/minecraft] read-write. *)
Theorem task_storage docker config key d :
  minecraftServerDefs config !! key = Some d →
  ∃ st t server w,
    synth docker config = Ok st
    ∧ st !! ("TaskDefinition-" +:+ key) = Some (CTaskDefinition t)
    ∧ st !! ("ServerContainer-" +:+ key) = Some (CContainer server)
    ∧ st !! ("WatchDogContainer-" +:+ key) = Some (CContainer w)
    ∧ volumes t =
        [ {| vol_name := ECS_VOLUME_NAME constants;
             efsVolumeConfiguration :=
               {| fileSystemId := Attr "FileSystem" "fileSystemId";
                  transitEncryption := "ENABLED";
                  accessPointId := Attr "AccessPoint" "accessPointId";
                  iam := "ENABLED" |} |} ]
    ∧ st !! "AccessPoint" =
        Some (CAccessPoint
          {| ap_fileSystem := "FileSystem"; ap_path := "/minecraft";
             ap_posixUser := ("1000", "1000");
             ap_createAcl := ("1000", "1000", "0755") |})
    ∧ mountPoints server =
        [ {| containerPath := "/minecraft";
             sourceVolume := ECS_VOLUME_NAME constants;
             readOnly := false |} ]
    ∧ mountPoints w = mountPoints server
    ∧ cd_taskDefinition server = "TaskDefinition-" +:+ key
    ∧ cd_taskDefinition w = "TaskDefinition-" +:+ key.
Proof.
  intros Hd.
  destruct (synth_run docker config)
    as (st0 & st & _ & Hshared & Hsynth & Hnodes & Hframe).
  destruct (Hnodes key d Hd) as [Htd Hserver _ Hw _ _ _ _].
  eexists st, _, _, _. split; [done|]. split; [exact Htd|].
  split; [exact Hserver|]. split; [exact Hw|]. split; [reflexivity|].
  split; [|done].
  rewrite <- (shared_accessPoint _ _ Hshared).
  apply (frame_shared config _ _ _ _ _ Hframe); [in_list|done..].
Qed.

(** X9.  Who may reach the file system: on the network its default port is open
    to the security group of the maintenance host and, as soon as the map
    has a server, to the shared security group of the services, each once;
    the policy to read and write it names the file system, holds only for
    the shared access point, and is attached to the task role and the role
    of the maintenance host. *)
Theorem file_system_access docker config :
  ∃ st,
    synth docker config = Ok st
    ∧ st !! "FileSystem" =
        Some (CFileSystem
          {| fs_vpc := "Vpc";
             fs_removalPolicy := SNAPSHOT;
             fs_allowDefaultPortFrom :=
               match size (minecraftServerDefs config) with
               | O => [ "EfsMaintenanceSecurityGroup" ]
               | S _ => [ "EfsMaintenanceSecurityGroup";
                          "ServiceSecurityGroup" ]
               end |})
    ∧ st !! "DataRWPolicy" =
        Some (CPolicy
          {| statements :=
               [ {| sid := Some "AllowReadWriteOnEFS";
                    effect := ALLOW;
                    actions := [ "elasticfilesystem:ClientMount";
                                 "elasticfilesystem:ClientWrite";
                                 "elasticfilesystem:DescribeFileSystems" ];
                    resources := [ Attr "FileSystem" "fileSystemArn" ];
                    conditions :=
                      [ ("StringEquals", "elasticfilesystem:AccessPointArn",
                         Attr "AccessPoint" "accessPointArn") ] |} ];
             roles := [ "TaskRole"; "EFSMaintenanceRole" ] |}).
Proof.
  destruct (synth_run docker config)
    as (st0 & st & Hrun & Hshared & Hsynth & Hnodes & Hframe).
  destruct (sharedResources_policies config)
    as (st0' & Hrun' & Hdata & _ & _).
  assert (st0' = st0) as -> by congruence.
  exists st. split; [done|]. split.
  - exact (fileSystem_after_loop _ _ _ _ _ Hshared Hframe).
  - rewrite <- Hdata.
    apply (frame_shared config _ _ _ _ _ Hframe); [in_list|done..].
Qed.

(** X10.  The maintenance host does not depend on the servers: for every map
    of server definitions the tree holds the same role for EC2, the same
    policy for the session manager attached to that role alone, the same
    security group without ingress rule and the same launch template, a
    one-time spot request that terminates on interruption and on shutdown. *)
Theorem maintenance_host docker config defs :
  ∃ st,
    synth docker (withServerDefs config defs) = Ok st
    ∧ st !! "EFSMaintenanceRole" =
        Some (CRole (RoleNew "ec2.amazonaws.com" "Minecraft EC2 instance role"))
    ∧ st !! "SSMManagedInstanceCorePolicy" =
        Some (CPolicy
          {| statements :=
               [ {| sid := Some "AllowSSMManagedInstance";
                    effect := ALLOW;
                    actions := ssmManagedInstanceCoreActions;
                    resources := [ Str "*" ];
                    conditions := [] |} ];
             roles := [ "EFSMaintenanceRole" ] |})
    ∧ st !! "EfsMaintenanceSecurityGroup" =
        Some (CSecurityGroup
          {| sg_vpc := "Vpc";
             sg_description :=
               "Security group for Minecraft on-demand EFS Maintenance Instances";
             sg_ingress := [] |})
    ∧ st !! "EFSMaintenanceLaunchTemplate" =
        Some (CLaunchTemplate
          {| lt_userData_fileSystemId := Attr "FileSystem" "fileSystemId";
             lt_userData_region := serverRegion config;
             lt_role := "EFSMaintenanceRole";
             lt_spotOptions := ("TERMINATE", "ONE_TIME");
             lt_securityGroup := "EfsMaintenanceSecurityGroup";
             lt_instanceInitiatedShutdownBehavior := "TERMINATE" |}).
Proof.
  set (config' := withServerDefs config defs).
  destruct (synth_run docker config')
    as (st0 & st & Hrun & Hshared & Hsynth & Hnodes & Hframe).
  destruct (sharedResources_policies config')
    as (st0' & Hrun' & _ & Hssm & Hgroup).
  assert (st0' = st0) as -> by congruence.
  exists st. split; [done|].
  split; [|split; [|split]].
  - rewrite <- (shared_maintenanceRole _ _ Hshared).
    apply (frame_shared config' _ _ _ _ _ Hframe); [apply maintenance_ids_shared; in_list|done..].
  - rewrite <- Hssm.
    apply (frame_shared config' _ _ _ _ _ Hframe); [apply maintenance_ids_shared; in_list|done..].
  - rewrite <- Hgroup.
    apply (frame_shared config' _ _ _ _ _ Hframe); [apply maintenance_ids_shared; in_list|done..].
  - rewrite (frame_shared config' _ _ _ _ _ Hframe); [|apply maintenance_ids_shared; in_list|done..].
    apply (shared_launchTemplate _ _ Hshared).
Qed.

(** X11.  The network: an existing network is looked up when the config names
    one, otherwise a network over three zones without NAT gateway is
    created; the file system, the cluster and both security groups are in
    that one network. *)
Theorem one_network docker config :
  ∃ st f c g m,
    synth docker config = Ok st
    ∧ st !! "Vpc" =
        Some (CVpc (match vpcId config with
                    | EmptyString => VpcNew 3 0
                    | String _ _ => VpcFromLookup (vpcId config)
                    end))
    ∧ st !! "FileSystem" = Some (CFileSystem f) ∧ fs_vpc f = "Vpc"
    ∧ st !! "Cluster" = Some (CCluster c) ∧ cluster_vpc c = "Vpc"
    ∧ st !! "ServiceSecurityGroup" = Some (CSecurityGroup g)
    ∧ sg_vpc g = "Vpc"
    ∧ st !! "EfsMaintenanceSecurityGroup" = Some (CSecurityGroup m)
    ∧ sg_vpc m = "Vpc".
Proof.
  destruct (synth_run docker config)
    as (st0 & st & Hrun & Hshared & Hsynth & _ & Hframe).
  destruct (sharedResources_policies config) as (st0' & Hrun' & _ & _ & Hm).
  assert (st0' = st0) as -> by congruence.
  exists st. do 3 eexists.
  exists {| sg_vpc := "Vpc";
            sg_description :=
              "Security group for Minecraft on-demand EFS Maintenance Instances";
            sg_ingress := [] |}.
  split; [done|].
  split.
  { rewrite (frame_shared config _ _ _ _ _ Hframe); [|in_list|done..].
    rewrite (shared_vpc _ _ Hshared). by destruct (vpcId config). }
  split; [exact (fileSystem_after_loop _ _ _ _ _ Hshared Hframe)|].
  split; [reflexivity|].
  split.
  { rewrite (frame_shared config _ _ _ _ _ Hframe); [|in_list|done..].
    exact (shared_cluster _ _ Hshared). }
  split; [reflexivity|].
  split; [exact (securityGroup_after_loop _ _ _ _ _ Hshared Hframe)|].
  split; [reflexivity|].
  split; [|reflexivity].
  rewrite (frame_shared config _ _ _ _ _ Hframe);
    [exact Hm|apply maintenance_ids_shared; in_list|done..].
Qed.

(** Appending is injective on either side. *)
Lemma append_inj_l (p a b : string) : p +:+ a = p +:+ b → a = b.
Proof.
  induction p as [|c p IH]; [done|].
  cbv [String.append]. fold String.append. intros [= H]. by apply IH.
Qed.

Lemma list_ascii_of_append (a b : string) :
  String.list_ascii_of_string (a +:+ b)
  = String.list_ascii_of_string a ++ String.list_ascii_of_string b.
Proof.
  induction a as [|c a IH]; [done|].
  change (String c a +:+ b) with (String c (a +:+ b)).
  simpl. by rewrite IH.
Qed.

Lemma append_inj_r (a b s : string) : a +:+ s = b +:+ s → a = b.
Proof.
  intros H. apply (f_equal String.list_ascii_of_string) in H.
  rewrite !list_ascii_of_append in H. apply app_inv_tail in H.
  apply (f_equal String.string_of_list_ascii) in H.
  by rewrite !String.string_of_list_ascii_of_string in H.
Qed.

(** X12.  Two servers never share a name: for two keys of the map that differ,
    the names of the services, of the server containers and of the watchdog
    containers differ, so do the parameters the launcher roles are read
    from, and the watchdogs are told different services and different host
    names, whatever the constants and the domain are. *)
Theorem names_of_two_servers_differ docker config k1 k2 d1 d2 :
  k1 ≠ k2 →
  minecraftServerDefs config !! k1 = Some d1 →
  minecraftServerDefs config !! k2 = Some d2 →
  ∃ st s1 s2 c1 c2 w1 w2 r1 r2,
    synth docker config = Ok st
    ∧ st !! ("FargateService-" +:+ k1) = Some (CService s1)
    ∧ st !! ("FargateService-" +:+ k2) = Some (CService s2)
    ∧ st !! ("ServerContainer-" +:+ k1) = Some (CContainer c1)
    ∧ st !! ("ServerContainer-" +:+ k2) = Some (CContainer c2)
    ∧ st !! ("WatchDogContainer-" +:+ k1) = Some (CContainer w1)
    ∧ st !! ("WatchDogContainer-" +:+ k2) = Some (CContainer w2)
    ∧ st !! ("launcherLambdaRoleArn-" +:+ k1) = Some (CSSMParameterReader r1)
    ∧ st !! ("launcherLambdaRoleArn-" +:+ k2) = Some (CSSMParameterReader r2)
    ∧ serviceName s1 ≠ serviceName s2
    ∧ containerName c1 ≠ containerName c2
    ∧ containerName w1 ≠ containerName w2
    ∧ parameterName r1 ≠ parameterName r2
    ∧ ∀ name e1 e2 v1 v2,
        name ∈ [ "SERVICE"; "SERVERNAME" ] →
        environment w1 = Some e1 → environment w2 = Some e2 →
        (name, v1) ∈ e1 → (name, v2) ∈ e2 →
        v1 ≠ v2.
Proof.
  intros Hne Hd1 Hd2.
  destruct (synth_run docker config)
    as (st0 & st & _ & _ & Hsynth & Hnodes & _).
  destruct (Hnodes k1 d1 Hd1) as [_ Hc1 Hs1 Hw1 _ Hr1 _ _].
  destruct (Hnodes k2 d2 Hd2) as [_ Hc2 Hs2 Hw2 _ Hr2 _ _].
  exists st. eexists _, _, _, _, _, _, _, _.
  split; [done|].
  split; [exact Hs1|]. split; [exact Hs2|].
  split; [exact Hc1|]. split; [exact Hc2|].
  split; [exact Hw1|]. split; [exact Hw2|].
  split; [exact Hr1|]. split; [exact Hr2|].
  assert (Hsuffix : ∀ p, p +:+ "-" +:+ k1 ≠ p +:+ "-" +:+ k2).
  { intros p H. apply append_inj_l in H. by apply (append_inj_l "-") in H. }
  split; [apply Hsuffix|]. split; [apply Hsuffix|].
  split; [apply Hsuffix|]. split; [apply Hsuffix|].
  simpl. intros name e1 e2 v1 v2 Hname [= <-] [= <-] H1 H2.
  repeat (apply elem_of_cons in H1 as [H1|H1]);
    try (by destruct (not_elem_of_nil _ H1));
    injection H1 as -> ->;
    repeat (apply elem_of_cons in Hname as [Hname|Hname]);
    try (by destruct (not_elem_of_nil _ Hname));
    try discriminate Hname;
    repeat (apply elem_of_cons in H2 as [H2|H2]);
    try (by destruct (not_elem_of_nil _ H2));
    try discriminate H2;
    injection H2 as ->; intros [= H].
  - by apply (Hsuffix (SERVICE_NAME constants)).
  - by apply append_inj_r in H.
Qed.


End Stack.

(** ** Loading a configuration and building from it *)

Section ConfigClaims.

Variable JSON_parse : string → option (gmap string MinecraftServerDef).
Variable stringAsBoolean : option string → bool.
Variable toNumber : string → Z.

(** C5.  For every text that [JSON.parse] rejects, resolving the server
    definitions returns the empty map and writes the diagnostic; loading the
    configuration from an environment with that text completes with the
    empty map and the diagnostic, and the build from that configuration
    succeeds with no construct of any server. *)
Theorem malformed_json_gives_no_servers (json : string) :
  JSON_parse json = None →
  resolveMinecraftServerDefs JSON_parse (Some json) = (∅, [ diagnostic ])
  ∧ ∀ env : gmap string string,
      env !! "MINECRAFT_SERVER_DEFS_JSON" = Some json →
      ∃ config,
        resolveConfig JSON_parse stringAsBoolean toNumber env
          = (config, [ diagnostic ])
        ∧ minecraftServerDefs config = ∅
        ∧ ∀ constants getMinecraftServerConfig docker,
            ∃ st,
              synth constants getMinecraftServerConfig docker config = Ok st
              ∧ (∀ id, is_Some (st !! id) → id ∈ sharedIds config)
              ∧ ∀ key id, id ∈ perServerIds key → st !! id = None.
Proof.
  intros Hparse.
  assert (Hdefs : resolveMinecraftServerDefs JSON_parse (Some json)
                  = (∅, [ diagnostic ])).
  { unfold resolveMinecraftServerDefs. simpl. by rewrite Hparse. }
  split; [done|]. intros env Henv.
  eexists. split.
  { unfold resolveConfig. rewrite Henv, Hdefs. reflexivity. }
  split; [done|]. intros constants getMinecraftServerConfig docker.
  destruct (synth_empty constants getMinecraftServerConfig docker
              (resolveConfig JSON_parse stringAsBoolean toNumber env).1)
    as (st & Hsynth & _ & _ & Hdom & Hnone & _).
  { unfold resolveConfig. by rewrite Henv, Hdefs. }
  exists st. split; [|done].
  unfold resolveConfig in Hsynth. by rewrite Henv, Hdefs in Hsynth.
Qed.

(** ** Further properties of the loading of the configuration *)

(** A variable set to the empty string is read as one that is not set. *)
Lemma orElse_delete_empty (env : gmap string string) name x fallback :
  env !! name = Some "" →
  orElse (delete name env !! x) fallback = orElse (env !! x) fallback.
Proof.
  intros Hname. destruct (decide (name = x)) as [->|Hne].
  - by rewrite lookup_delete_eq, Hname.
  - by rewrite lookup_delete_ne.
Qed.

(** X14.  An environment variable that is set to the empty string is read as
    if it were not set at all, the text of the server definitions and the
    edition included; the two variables that go through [stringAsBoolean]
    are left out, for [stringAsBoolean] is given the empty string as it
    is. *)
Theorem empty_variable_reads_as_unset (env : gmap string string) name :
  env !! name = Some "" →
  name ≠ "USE_FARGATE_SPOT" → name ≠ "DEBUG" →
  resolveConfig JSON_parse stringAsBoolean toNumber (delete name env)
  = resolveConfig JSON_parse stringAsBoolean toNumber env.
Proof.
  intros Hname Hspot Hdebug. unfold resolveConfig.
  rewrite !(orElse_delete_empty env name) by done.
  rewrite (lookup_delete_ne env name "USE_FARGATE_SPOT") by done.
  rewrite (lookup_delete_ne env name "DEBUG") by done.
  assert (Hedition :
    bool_decide (delete name env !! "MINECRAFT_EDITION" = Some "bedrock")
    = bool_decide (env !! "MINECRAFT_EDITION" = Some "bedrock")).
  { destruct (decide (name = "MINECRAFT_EDITION")) as [->|Hne].
    - rewrite lookup_delete_eq, Hname.
      rewrite !bool_decide_eq_false_2; [done|discriminate..].
    - by rewrite lookup_delete_ne. }
  assert (Hnumber : ∀ x (fallback : Z),
    match delete name env !! x with
    | Some s => if truthy s then toNumber s else fallback
    | None => fallback
    end
    = match env !! x with
      | Some s => if truthy s then toNumber s else fallback
      | None => fallback
      end).
  { intros x fallback. destruct (decide (name = x)) as [->|Hne].
    - by rewrite lookup_delete_eq, Hname.
    - by rewrite lookup_delete_ne. }
  assert (Hdefs :
    resolveMinecraftServerDefs JSON_parse
      (delete name env !! "MINECRAFT_SERVER_DEFS_JSON")
    = resolveMinecraftServerDefs JSON_parse
        (env !! "MINECRAFT_SERVER_DEFS_JSON")).
  { destruct (decide (name = "MINECRAFT_SERVER_DEFS_JSON")) as [->|Hne].
    - by rewrite lookup_delete_eq, Hname.
    - by rewrite lookup_delete_ne. }
  by rewrite Hedition, !Hnumber, Hdefs.
Qed.

(** X15.  The diagnostic is written exactly when [JSON.parse] rejects the text
    of the server definitions, once, and nothing else is ever written; when
    the text is accepted the server definitions of the configuration are
    the parsed map; a variable that is not set is parsed as the empty
    text. *)
Theorem diagnostic_exactly_on_rejected_text (env : gmap string string) :
  let text := default "" (env !! "MINECRAFT_SERVER_DEFS_JSON") in
  let loaded := resolveConfig JSON_parse stringAsBoolean toNumber env in
  (JSON_parse text = None → loaded.2 = [ diagnostic ])
  ∧ (∀ parsed, JSON_parse text = Some parsed →
       loaded.2 = [] ∧ minecraftServerDefs loaded.1 = parsed)
  ∧ (loaded.2 = [] ↔ is_Some (JSON_parse text)).
Proof.
  simpl. unfold resolveMinecraftServerDefs.
  destruct (JSON_parse (default "" (env !! "MINECRAFT_SERVER_DEFS_JSON")))
    as [parsed|] eqn:Hparse; simpl.
  - split; [done|]. split.
    + intros ? [= <-]. split; [done|]. apply (right_id_L ∅ (∪)).
    + split; [by eexists|done].
  - split; [done|]. split; [done|].
    split; [done|by intros [? ?]].
Qed.


(** X17.  The task size of the environment is not used.  [TASK_CPU] and
    [TASK_MEMORY] are read into the configuration, but the build from it is
    the same tree whatever their values are, and so is what is written. *)
Theorem task_size_of_the_environment_is_unused (env : gmap string string)
    name value constants getMinecraftServerConfig docker :
  name ∈ [ "TASK_CPU"; "TASK_MEMORY" ] →
  let loaded := resolveConfig JSON_parse stringAsBoolean toNumber env in
  let loaded' :=
    resolveConfig JSON_parse stringAsBoolean toNumber (<[name := value]> env)
  in
  synth constants getMinecraftServerConfig docker loaded'.1
  = synth constants getMinecraftServerConfig docker loaded.1
  ∧ loaded'.2 = loaded.2.
Proof.
  intros Hname loaded loaded'.
  assert (Hother : ∀ x,
    x ≠ "TASK_CPU" → x ≠ "TASK_MEMORY" → <[name := value]> env !! x = env !! x).
  { intros x Hcpu Hmemory. apply lookup_insert_ne.
    repeat (apply elem_of_cons in Hname as [->|Hname]); try done.
    by destruct (not_elem_of_nil _ Hname). }
  assert (Hloaded :
    loaded' = (withTaskSize loaded.1 (taskCpu loaded'.1) (taskMemory loaded'.1),
               loaded.2)).
  { subst loaded loaded'. unfold resolveConfig, withTaskSize. simpl.
    repeat match goal with
           | |- context [ <[name := value]> env !! ?x ] =>
               rewrite (Hother x) by discriminate
           end.
    reflexivity. }
  rewrite Hloaded. split; [|done]. cbn [fst].
  apply synth_withTaskSize.
Qed.

End ConfigClaims.

(** ** The claims at the example data *)

Lemma one_ingress_rule_for_the_edition_witness :
  ∃ st g,
    synth example_constants example_getMinecraftServerConfig false
      (example_config "" example_defs) = Ok st
    ∧ st !! "ServiceSecurityGroup" = Some (CSecurityGroup g)
    ∧ sg_ingress g =
        [ {| rule_peer := anyIpv4;
             rule_connection :=
               {| port_protocol := UDP; fromPort := 19132; toPort := 19132;
                  port_toString := "UDP 19132" |};
             rule_description := "Minecraft-Server-Ingress-UDP 19132" |} ].
Proof.
  destruct (one_ingress_rule_for_the_edition example_constants
              example_getMinecraftServerConfig false
              (example_config "" example_defs))
    as (st & g & Hsynth & Hsg & Hrule & _).
  { apply insert_non_empty. }
  exists st, g. split; [exact Hsynth|]. split; [exact Hsg|]. exact Hrule.
Defined.



Lemma policy_scopes_of_a_server_witness :
  ∃ st control dns,
    synth example_constants example_getMinecraftServerConfig false
      (example_config "" example_defs) = Ok st
    ∧ st !! "ServiceControlPolicy-server1" = Some (CPolicy control)
    ∧ st !! "IamRoute53Policy-server1" = Some (CPolicy dns)
    ∧ resourceScopes (CPolicy control) =
        [ Attr "FargateService-server1" "serviceArn";
          ArnFormat "ecs" "task" "minecraft/*";
          Str "*" ]
    ∧ resourceScopes (CPolicy dns) =
        [ Template "arn:aws:route53:::hostedzone/"
            (Attr "Route53HostedZoneIdReader" "Parameter.Value") ].
Proof.
  destruct (policy_scopes_of_a_server example_constants
              example_getMinecraftServerConfig false
              (example_config "" example_defs) "server1" "server2"
              (example_def "server1-data") (example_def "server2-data"))
    as (st & control & dns & Hsynth & Hcontrol & Hdns & Hsc & Hsd & _).
  { discriminate. }
  { vm_compute. reflexivity. }
  { vm_compute. reflexivity. }
  exists st, control, dns. split; [exact Hsynth|]. split; [exact Hcontrol|].
  split; [exact Hdns|]. split; [exact Hsc|exact Hsd].
Defined.

(** C3, as stated, fails: the control policy of [server1] reaches the
    tasks of [server2] through the scope of all tasks of the cluster, and
    its DNS-edit policy reaches the record of [server2] through the scope of
    the hosted zone. *)
Lemma policies_reach_other_servers :
  ∃ st control dns,
    synth example_constants example_getMinecraftServerConfig false
      (example_config "" example_defs) = Ok st
    ∧ st !! "ServiceControlPolicy-server1" = Some (CPolicy control)
    ∧ st !! "IamRoute53Policy-server1" = Some (CPolicy dns)
    ∧ ArnFormat "ecs" "task" "minecraft/*" ∈ resourceScopes (CPolicy control)
    ∧ covers example_constants (ArnFormat "ecs" "task" "minecraft/*")
        (TaskOf "server2") = true
    ∧ Template "arn:aws:route53:::hostedzone/"
        (Attr "Route53HostedZoneIdReader" "Parameter.Value")
        ∈ resourceScopes (CPolicy dns)
    ∧ covers example_constants
        (Template "arn:aws:route53:::hostedzone/"
           (Attr "Route53HostedZoneIdReader" "Parameter.Value"))
        (RecordOf "server2") = true
    ∧ ¬ isolated example_constants st "server1" "server2".
Proof.
  assert (H1 : minecraftServerDefs (example_config "" example_defs)
               !! "server1" = Some (example_def "server1-data")).
  { vm_compute. reflexivity. }
  destruct (synth_run example_constants example_getMinecraftServerConfig false
              (example_config "" example_defs))
    as (st0 & st & _ & _ & Hsynth & Hnodes & _).
  destruct (Hnodes _ _ H1) as [_ _ _ _ Hcontrol _ _ Hdns].
  eexists st, _, _. split; [exact Hsynth|].
  split; [exact Hcontrol|]. split; [exact Hdns|].
  split; [in_list|]. split; [reflexivity|].
  split; [in_list|]. split; [reflexivity|].
  intros Hiso.
  specialize (Hiso "ServiceControlPolicy-server1" _
                (ArnFormat "ecs" "task" "minecraft/*") (TaskOf "server2")
                ltac:(in_list) Hcontrol ltac:(in_list) ltac:(in_list)).
  discriminate Hiso.
Qed.

Lemma one_task_role_for_all_servers_witness :
  ∃ st t control dns,
    synth example_constants example_getMinecraftServerConfig false
      (example_config "" example_defs) = Ok st
    ∧ st !! "TaskDefinition-server1" = Some (CTaskDefinition t)
    ∧ st !! "ServiceControlPolicy-server2" = Some (CPolicy control)
    ∧ taskRole t ∈ roles control
    ∧ st !! "IamRoute53Policy-server2" = Some (CPolicy dns)
    ∧ taskRole t ∈ roles dns.
Proof.
  destruct (one_task_role_for_all_servers example_constants
              example_getMinecraftServerConfig false
              (example_config "" example_defs))
    as (st0 & st & _ & _ & _ & Hsynth & _ & _ & Hpairs).
  destruct (Hpairs "server1" "server2" (example_def "server1-data")
              (example_def "server2-data"))
    as (t & control & dns & Htd & Hcontrol & Hrc & Hdns & Hrd).
  { vm_compute. reflexivity. }
  { vm_compute. reflexivity. }
  exists st, t, control, dns. split; [exact Hsynth|]. split; [exact Htd|].
  split; [exact Hcontrol|]. split; [exact Hrc|]. split; [exact Hdns|exact Hrd].
Defined.

Lemma malformed_json_gives_no_servers_witness :
  example_JSON_parse "{not json" = None
  ∧ resolveMinecraftServerDefs example_JSON_parse (Some "{not json")
    = (∅, [ "Error: Unable to resolve .env value for MINECRAFT_SERVER_DEFS_JSON." ]).
Proof.
  split; [reflexivity|].
  apply (malformed_json_gives_no_servers example_JSON_parse
           example_stringAsBoolean (λ _, 0) "{not json").
  reflexivity.
Defined.

Lemma notification_topic_witness :
  ∃ st w env,
    synth example_constants example_getMinecraftServerConfig false
      (example_config "ops@example.com" example_defs) = Ok st
    ∧ st !! "ServerSnsTopic" =
        Some (CTopic {| displayName := "Minecraft Server Notifications";
                        publishGrants := [ "TaskRole" ] |})
    ∧ st !! "WatchDogContainer-server2" = Some (CContainer w)
    ∧ environment w = Some env
    ∧ ("SNSTOPIC", Attr "ServerSnsTopic" "topicArn") ∈ env.
Proof.
  destruct (notification_topic example_constants
              example_getMinecraftServerConfig false
              (example_config "ops@example.com" example_defs))
    as (st & Hsynth & Htopic & Hkeys).
  destruct (Hkeys "server2" (example_def "server2-data"))
    as (w & env & Hw & Henv & Hsns).
  { vm_compute. reflexivity. }
  simpl in Htopic. destruct Htopic as (Htopic & _).
  exists st, w, env. split; [exact Hsynth|]. split; [exact Htopic|].
  split; [exact Hw|]. split; [exact Henv|].
  apply Hsns. reflexivity.
Defined.

Lemma watchdog_container_witness :
  ∃ st w,
    synth example_constants example_getMinecraftServerConfig false
      (example_config "" example_defs) = Ok st
    ∧ st !! "WatchDogContainer-server1" = Some (CContainer w)
    ∧ essential w = true
    ∧ mountPoints w =
        [ {| containerPath := "/minecraft"; sourceVolume := "data";
             readOnly := false |} ]
    ∧ environment w = Some
        [ ("CLUSTER", Str "minecraft");
          ("SERVICE", Str "minecraft-server-server1");
          ("DNSZONE", Attr "Route53HostedZoneIdReader" "Parameter.Value");
          ("SERVERNAME", Str "server1.minecraft.example.com");
          ("SNSTOPIC", Str "");
          ("TWILIOFROM", Str "");
          ("TWILIOTO", Str "");
          ("TWILIOAID", Str "");
          ("TWILIOAUTH", Str "");
          ("STARTUPMIN", Str "5");
          ("SHUTDOWNMIN", Str "10") ].
Proof.
  destruct (watchdog_container example_constants
              example_getMinecraftServerConfig false
              (example_config "" example_defs) "server1"
              (example_def "server1-data"))
    as (st & w & server & svc & Hsynth & Hw & _ & _ & _ & _ & Hess & _ & _
        & Hmount & _ & _ & Hname & Henv).
  { vm_compute. reflexivity. }
  exists st, w. split; [exact Hsynth|]. split; [exact Hw|].
  split; [exact Hess|]. split; [exact Hmount|].
  rewrite Henv, Hname. reflexivity.
Defined.

Lemma compute_service_witness :
  ∃ st svc,
    synth example_constants example_getMinecraftServerConfig false
      (example_config "" example_defs) = Ok st
    ∧ st !! "FargateService-server1" = Some (CService svc)
    ∧ desiredCount svc = 0
    ∧ capacityProviderStrategies svc =
        [ {| capacityProvider := FARGATE_SPOT; weight := 1; base := 1 |} ]
    ∧ assignPublicIp svc = true
    ∧ securityGroups svc = [ "ServiceSecurityGroup" ].
Proof.
  destruct (compute_service example_constants
              example_getMinecraftServerConfig false
              (example_config "" example_defs) "server1"
              (example_def "server1-data"))
    as (st & svc & g & Hsynth & Hsvc & Hcount & Hcap & Hip & Hsgs & _).
  { vm_compute. reflexivity. }
  exists st, svc. split; [exact Hsynth|]. split; [exact Hsvc|].
  split; [exact Hcount|]. split; [exact Hcap|]. split; [exact Hip|exact Hsgs].
Defined.

Lemma empty_tenant_map_witness :
  ∃ st g,
    synth example_constants example_getMinecraftServerConfig false
      (example_config "" ∅) = Ok st
    ∧ st !! "ServiceSecurityGroup" = Some (CSecurityGroup g)
    ∧ sg_ingress g = []
    ∧ st !! "TaskDefinition-server1" = None.
Proof.
  destruct (empty_tenant_map example_constants
              example_getMinecraftServerConfig false (example_config "" ∅))
    as (st & Hsynth & _ & (v & f & a & c & g & l & _ & _ & _ & _ & Hsg & Hin & _)
        & _ & Hnone).
  { reflexivity. }
  exists st, g. split; [exact Hsynth|]. split; [exact Hsg|].
  split; [exact Hin|]. apply (Hnone "server1"). in_list.
Defined.

Lemma same_names_and_scopes_witness :
  ∃ st1 st2 svc,
    synth example_constants example_getMinecraftServerConfig false
      (example_config "" example_defs) = Ok st1
    ∧ synth example_constants example_getMinecraftServerConfig true
        (example_config "" example_defs) = Ok st2
    ∧ st1 !! "FargateService-server1" = Some (CService svc)
    ∧ st2 !! "FargateService-server1" = Some (CService svc)
    ∧ serviceName svc = "minecraft-server-server1".
Proof.
  destruct (same_names_and_scopes example_constants
              example_getMinecraftServerConfig false true
              (example_config "" example_defs))
    as (st1 & st2 & Hsynth1 & Hsynth2 & _ & Hkeys).
  destruct (Hkeys "server1" (example_def "server1-data"))
    as (_ & _ & (svc & Hsvc1 & Hsvc2 & Hname) & _).
  { vm_compute. reflexivity. }
  exists st1, st2, svc. split; [exact Hsynth1|]. split; [exact Hsynth2|].
  split; [exact Hsvc1|]. split; [exact Hsvc2|exact Hname].
Defined.

(** ** The build run on the example data *)

Example two_servers_one_rule :
  ingressOf (synth example_constants example_getMinecraftServerConfig false
               (example_config "" example_defs))
  = Some [ {| rule_peer := anyIpv4;
              rule_connection :=
                {| port_protocol := UDP; fromPort := 19132; toPort := 19132;
                   port_toString := "UDP 19132" |};
              rule_description := "Minecraft-Server-Ingress-UDP 19132" |} ].
Proof. vm_compute. reflexivity. Qed.

Example no_server_no_rule :
  ingressOf (synth example_constants example_getMinecraftServerConfig false
               (example_config "" ∅))
  = Some [].
Proof. vm_compute. reflexivity. Qed.

Example no_server_shared_ids :
  idsOf (synth example_constants example_getMinecraftServerConfig false
           (example_config "" ∅))
  = Some [ "SSMManagedInstanceCorePolicy"; "ServiceSecurityGroup"; "Cluster";
           "EfsMaintenanceSecurityGroup"; "EFSMaintenanceRole";
           "EFSMaintenanceLaunchTemplate"; "AccessPoint"; "Vpc"; "FileSystem";
           "Route53HostedZoneIdReader"; "TaskRole"; "DataRWPolicy" ].
Proof. vm_compute. reflexivity. Qed.

Example two_servers_thirty_constructs :
  length <$> idsOf (synth example_constants example_getMinecraftServerConfig
                      true (example_config "ops@example.com" example_defs))
  = Some 30%nat.
Proof. vm_compute. reflexivity. Qed.

Example control_scopes_of_server1 :
  resourceScopes <$>
    lookupOf "ServiceControlPolicy-server1"
      (synth example_constants example_getMinecraftServerConfig false
         (example_config "" example_defs))
  = Some [ Attr "FargateService-server1" "serviceArn";
           ArnFormat "ecs" "task" "minecraft/*";
           Str "*" ].
Proof. vm_compute. reflexivity. Qed.

Example dns_scopes_of_both_servers :
  resourceScopes <$>
    lookupOf "IamRoute53Policy-server1"
      (synth example_constants example_getMinecraftServerConfig false
         (example_config "" example_defs))
  = resourceScopes <$>
      lookupOf "IamRoute53Policy-server2"
        (synth example_constants example_getMinecraftServerConfig false
           (example_config "" example_defs)).
Proof. vm_compute. reflexivity. Qed.

Example malformed_text_is_logged :
  resolveMinecraftServerDefs example_JSON_parse (Some "{not json")
  = (∅, [ diagnostic ]).
Proof. vm_compute. reflexivity. Qed.

Example undefined_text_is_logged :
  resolveMinecraftServerDefs example_JSON_parse None = (∅, [ diagnostic ]).
Proof. vm_compute. reflexivity. Qed.

Example empty_object_is_silent :
  resolveMinecraftServerDefs example_JSON_parse (Some " { } ") = (∅, []).
Proof. vm_compute. reflexivity. Qed.

(** ** The further properties at the example data *)

Lemma tree_ids_witness :
  ∃ st,
    synth example_constants example_getMinecraftServerConfig false
      (example_config "" example_defs) = Ok st
    ∧ size st = 28%nat.
Proof.
  destruct (synth_run example_constants example_getMinecraftServerConfig false
              (example_config "" example_defs))
    as (st0 & st & _ & _ & Hsynth & _ & _).
  exists st. split; [exact Hsynth|].
  apply (tree_ids example_constants example_getMinecraftServerConfig false
           (example_config "" example_defs) st Hsynth).
Defined.

Lemma adding_a_server_keeps_the_others_witness :
  ∃ st st',
    synth example_constants example_getMinecraftServerConfig false
      (example_config "" (<["server2" := example_def "server2-data"]> ∅))
      = Ok st
    ∧ synth example_constants example_getMinecraftServerConfig false
        (example_config "" example_defs) = Ok st'
    ∧ st !! "TaskDefinition-server1" = None
    ∧ is_Some (st' !! "TaskDefinition-server1").
Proof.
  destruct (synth_run example_constants example_getMinecraftServerConfig false
              (example_config ""
                 (<["server2" := example_def "server2-data"]> ∅)))
    as (st0 & st & _ & _ & Hsynth & _ & _).
  destruct (synth_run example_constants example_getMinecraftServerConfig false
              (example_config "" example_defs))
    as (st0' & st' & _ & _ & Hsynth' & _ & _).
  exists st, st'. split; [exact Hsynth|]. split; [exact Hsynth'|].
  apply (adding_a_server_keeps_the_others example_constants
           example_getMinecraftServerConfig false
           (example_config "" (<["server2" := example_def "server2-data"]> ∅))
           "server1" (example_def "server1-data") st st').
  - vm_compute. reflexivity.
  - exact Hsynth.
  - exact Hsynth'.
  - in_list.
Defined.


Lemma launcher_role_of_a_server_witness :
  ∃ st control,
    synth example_constants example_getMinecraftServerConfig false
      (example_config "" example_defs) = Ok st
    ∧ st !! "launcherLambdaRoleArn-server1" =
        Some (CSSMParameterReader
          {| parameterName := "LauncherLambdaRoleArn-server1";
             region := "us-east-1" |})
    ∧ st !! "ServiceControlPolicy-server1" = Some (CPolicy control)
    ∧ roles control = [ "TaskRole"; "LauncherLambdaRole-server1" ].
Proof.
  destruct (launcher_role_of_a_server example_constants
              example_getMinecraftServerConfig false
              (example_config "" example_defs) "server1"
              (example_def "server1-data"))
    as (st & control & dns & Hsynth & Hreader & _ & Hcontrol & Hroles & _).
  { vm_compute. reflexivity. }
  exists st, control. split; [exact Hsynth|]. split; [exact Hreader|].
  split; [exact Hcontrol|exact Hroles].
Defined.

Lemma second_run_for_a_key_throws_witness :
  (perServer example_constants example_getMinecraftServerConfig false
     (example_config "" example_defs)
     (sharedRefs (example_config "" example_defs)) "server1";;
   perServer example_constants example_getMinecraftServerConfig false
     (example_config "" example_defs)
     (sharedRefs (example_config "" example_defs)) "server1") ∅
  = Throw (ConstructExists "TaskDefinition-server1").
Proof.
  apply (second_run_for_a_key_throws example_constants
           example_getMinecraftServerConfig false
           (example_config "" example_defs) "server1"
           (example_def "server1-data") ∅).
  - vm_compute. reflexivity.
  - apply Forall_forall. intros id _. apply lookup_empty.
Defined.

Lemma server_container_witness :
  ∃ st c,
    synth example_constants example_getMinecraftServerConfig false
      (example_config "" example_defs) = Ok st
    ∧ st !! "ServerContainer-server1" = Some (CContainer c)
    ∧ containerName c = "minecraft-server-server1"
    ∧ cd_image c = fromRegistry "itzg/minecraft-bedrock-server"
    ∧ portMappings c =
        [ {| containerPort := 19132; hostPort := 19132;
             pm_protocol := UDP |} ]
    ∧ environment c =
        Some [ ("DATA_SUBPATH", Str "server1-data"); ("QuietCurl", Str "Y");
               ("NoPermCheck", Str "Y") ].
Proof.
  destruct (server_container example_constants
              example_getMinecraftServerConfig false
              (example_config "" example_defs) "server1"
              (example_def "server1-data"))
    as (st & Hsynth & Hc).
  { vm_compute. reflexivity. }
  exists st. eexists. split; [exact Hsynth|]. split; [exact Hc|].
  repeat split.
Defined.

Lemma log_drivers_only_in_debug_witness :
  ∃ st server,
    synth example_constants example_getMinecraftServerConfig false
      (example_config "" example_defs) = Ok st
    ∧ st !! "ServerContainer-server1" = Some (CContainer server)
    ∧ is_Some (logging server).
Proof.
  destruct (log_drivers_only_in_debug example_constants
              example_getMinecraftServerConfig false
              (example_config "" example_defs) "server1"
              (example_def "server1-data"))
    as (st & server & w & Hsynth & Hserver & _ & Hlog & _).
  { vm_compute. reflexivity. }
  exists st, server. split; [exact Hsynth|]. split; [exact Hserver|].
  apply Hlog. reflexivity.
Defined.

Lemma task_storage_witness :
  ∃ st t,
    synth example_constants example_getMinecraftServerConfig false
      (example_config "" example_defs) = Ok st
    ∧ st !! "TaskDefinition-server1" = Some (CTaskDefinition t)
    ∧ volumes t =
        [ {| vol_name := "data";
             efsVolumeConfiguration :=
               {| fileSystemId := Attr "FileSystem" "fileSystemId";
                  transitEncryption := "ENABLED";
                  accessPointId := Attr "AccessPoint" "accessPointId";
                  iam := "ENABLED" |} |} ].
Proof.
  destruct (task_storage example_constants
              example_getMinecraftServerConfig false
              (example_config "" example_defs) "server1"
              (example_def "server1-data"))
    as (st & t & server & w & Hsynth & Ht & _ & _ & Hvolumes & _).
  { vm_compute. reflexivity. }
  exists st, t. split; [exact Hsynth|]. split; [exact Ht|exact Hvolumes].
Defined.

Lemma names_of_two_servers_differ_witness :
  ∃ st s1 s2,
    synth example_constants example_getMinecraftServerConfig false
      (example_config "" example_defs) = Ok st
    ∧ st !! "FargateService-server1" = Some (CService s1)
    ∧ st !! "FargateService-server2" = Some (CService s2)
    ∧ serviceName s1 ≠ serviceName s2.
Proof.
  destruct (names_of_two_servers_differ example_constants
              example_getMinecraftServerConfig false
              (example_config "" example_defs) "server1" "server2"
              (example_def "server1-data") (example_def "server2-data"))
    as (st & s1 & s2 & c1 & c2 & w1 & w2 & r1 & r2
        & Hsynth & Hs1 & Hs2 & _ & _ & _ & _ & _ & _ & Hname & _).
  { discriminate. }
  { vm_compute. reflexivity. }
  { vm_compute. reflexivity. }
  exists st, s1, s2. split; [exact Hsynth|]. split; [exact Hs1|].
  split; [exact Hs2|exact Hname].
Defined.


Lemma empty_variable_reads_as_unset_witness :
  resolveConfig example_JSON_parse example_stringAsBoolean (λ _, 0)
    (delete "SERVER_REGION" (<["SERVER_REGION" := ""]> ∅))
  = resolveConfig example_JSON_parse example_stringAsBoolean (λ _, 0)
      (<["SERVER_REGION" := ""]> ∅).
Proof.
  apply (empty_variable_reads_as_unset example_JSON_parse
           example_stringAsBoolean (λ _, 0) (<["SERVER_REGION" := ""]> ∅)
           "SERVER_REGION").
  - vm_compute. reflexivity.
  - discriminate.
  - discriminate.
Defined.


Lemma task_size_of_the_environment_is_unused_witness :
  synth example_constants example_getMinecraftServerConfig false
    (resolveConfig example_JSON_parse example_stringAsBoolean (λ _, 4096)
       (<["TASK_CPU" := "4096"]> (<["MINECRAFT_SERVER_DEFS_JSON" := "{}"]> ∅))).1
  = synth example_constants example_getMinecraftServerConfig false
      (resolveConfig example_JSON_parse example_stringAsBoolean (λ _, 4096)
         (<["MINECRAFT_SERVER_DEFS_JSON" := "{}"]> ∅)).1.
Proof.
  apply (task_size_of_the_environment_is_unused example_JSON_parse
           example_stringAsBoolean (λ _, 4096)
           (<["MINECRAFT_SERVER_DEFS_JSON" := "{}"]> ∅) "TASK_CPU" "4096"
           example_constants example_getMinecraftServerConfig false).
  in_list.
Defined.
